(** * Saved-Hub: a shallow embedding of [Main.py]

    [Main.py] is a Streamlit script: every user interaction re-executes it
    from the top against the persisted [st.session_state].  The embedding
    keeps that shape.  A script fragment is a computation over the
    application state (session state and the query parameters of the
    request) that ends by returning, by raising a Python exception, or by
    one of Streamlit's two control signals ([st.rerun], [st.stop]); it also
    leaves a trace of what it drew and of the vendor requests it issued.

    Everything the script obtains from outside (clock readings, the outcome
    of a token exchange, the answer of a vendor API, which button was
    pressed) is an explicit input of the fragment that asks for it.

    Conventions: clock readings are whole seconds; building a client
    object ([googleapiclient.discovery.build], [praw.Reddit]) does not
    fail. *)

From Stdlib Require Import ZArith List String Bool Lia.
From stdpp Require Import base option list strings gmap.

Import ListNotations.
Local Open Scope Z_scope.
Local Open Scope string_scope.

(** ** Python values the script handles *)

(** The exceptions the script can meet.  [HttpError] is
    [googleapiclient.errors.HttpError]; the three next ones are the builtin
    exceptions raised by subscripting, attribute access and iteration;
    [OtherException] stands for every other subclass of [Exception]
    (transport failures, [praw] and [google.auth] errors, ...);
    [FileNotFoundError] is what [st.secrets] raises when there is no
    secrets file to read. *)
Inductive exn :=
| HttpError (reason : string)
| KeyError (key : string)
| TypeError (what : string)
| AttributeError (name : string)
| OtherException (descr : string)
| FileNotFoundError (what : string).

(** A decoded JSON document, as [request.execute()] returns it. *)
#[local] Set Warnings "-register-all".
Inductive json :=
| JNull
| JBool (b : bool)
| JNum (n : Z)
| JStr (s : string)
| JArr (elems : list json)
| JObj (fields : list (string * json)).

(** An f-string with a single substitution: the literal text before it, the
    substituted value, the literal text after it. *)
Record fstring (A : Type) := FString {
  literal_before : string;
  substituted : A;
  literal_after : string
}.
Arguments FString {A} _ _ _.
Arguments literal_before {A} _.
Arguments substituted {A} _.
Arguments literal_after {A} _.

(** Pure Python expressions either yield a value or raise. *)
Definition result (A : Type) : Type := exn + A.

Definition rbind {A B} (r : result A) (k : A -> result B) : result B :=
  match r with
  | inl e => inl e
  | inr a => k a
  end.

(** [v[key]] for a string key. *)
Definition subscript (v : json) (key : string) : result json :=
  match v with
  | JObj fields =>
      match List.find (fun kv => String.eqb (fst kv) key) fields with
      | Some kv => inr (snd kv)
      | None => inl (KeyError key)
      end
  | JStr _ => inl (TypeError "string indices must be integers")
  | JArr _ => inl (TypeError "list indices must be integers or slices")
  | _ => inl (TypeError "object is not subscriptable")
  end.

(** [v.get(key, default)]: only a dict has the method. *)
Definition dict_get (v : json) (key : string) (default : json) : result json :=
  match v with
  | JObj fields =>
      match List.find (fun kv => String.eqb (fst kv) key) fields with
      | Some kv => inr (snd kv)
      | None => inr default
      end
  | _ => inl (AttributeError "get")
  end.

Fixpoint chars (s : string) : list json :=
  match s with
  | EmptyString => []
  | String c rest => JStr (String c EmptyString) :: chars rest
  end.

(** The elements a [for] loop over [v] visits. *)
Definition iterate (v : json) : result (list json) :=
  match v with
  | JArr elems => inr elems
  | JObj fields => inr (List.map (fun kv => JStr (fst kv)) fields)
  | JStr s => inr (chars s)
  | _ => inl (TypeError "object is not iterable")
  end.

(** ** Session state *)

Inductive provider := YouTube | Reddit.

(** [flow.credentials]: the credential minted by the token exchange. *)
Record credentials := Credentials { access_token : string }.

(** [googleapiclient.discovery.build("youtube", "v3", credentials=...)]. *)
Record youtube_resource := Build {
  serviceName : string;
  version : string;
  build_credentials : credentials
}.

(** A [praw.Reddit] instance and the code it was authorized with. *)
Record reddit_instance := PrawReddit {
  client_id : string;
  client_secret : string;
  redirect_uri : string;
  user_agent : string;
  authorized_code : string
}.

(** [InstalledAppFlow.from_client_secrets_file(file, scopes)]. *)
Record oauth_flow_obj := Flow {
  client_secrets : string;
  scopes : list string;
  flow_redirect_uri : string
}.

(** The dict appended by [fetch_youtube_saved_videos]. *)
Record video := Video {
  video_title : json;
  video_url : fstring json;
  video_thumbnail : json
}.

(** The dict appended by [fetch_reddit_saved_posts]. *)
Record post := Post {
  post_title : string;
  post_url : string;
  post_subreddit : string
}.

(** [st.session_state].  The eight keys initialised at the top of the
    script are always present; [oauth_state] and [oauth_flow] exist only
    once [youtube_login] has stored them, and reading them before that
    raises [AttributeError]. *)
Record session_state := Session {
  youtube_credentials : option credentials;
  reddit_access_token : option string;
  youtube_api : option youtube_resource;
  reddit : option reddit_instance;
  youtube_videos : list video;
  reddit_posts : list post;
  last_sync_time : Z;
  sync_interval : Z;
  oauth_state : option string;
  oauth_flow : option oauth_flow_obj
}.

(** The state a new session has after the "Session state initialization"
    block (lines 15-30); on later runs the block changes nothing. *)
Definition new_session : session_state :=
  {| youtube_credentials := None;
     reddit_access_token := None;
     youtube_api := None;
     reddit := None;
     youtube_videos := [];
     reddit_posts := [];
     last_sync_time := 0;
     sync_interval := 60;
     oauth_state := None;
     oauth_flow := None |}.

Definition set_youtube_credentials (c : option credentials) (s : session_state) :=
  {| youtube_credentials := c;
     reddit_access_token := reddit_access_token s;
     youtube_api := youtube_api s;
     reddit := reddit s;
     youtube_videos := youtube_videos s;
     reddit_posts := reddit_posts s;
     last_sync_time := last_sync_time s;
     sync_interval := sync_interval s;
     oauth_state := oauth_state s;
     oauth_flow := oauth_flow s |}.

Definition set_youtube_api (a : option youtube_resource) (s : session_state) :=
  {| youtube_credentials := youtube_credentials s;
     reddit_access_token := reddit_access_token s;
     youtube_api := a;
     reddit := reddit s;
     youtube_videos := youtube_videos s;
     reddit_posts := reddit_posts s;
     last_sync_time := last_sync_time s;
     sync_interval := sync_interval s;
     oauth_state := oauth_state s;
     oauth_flow := oauth_flow s |}.

Definition set_reddit (r : option reddit_instance) (s : session_state) :=
  {| youtube_credentials := youtube_credentials s;
     reddit_access_token := reddit_access_token s;
     youtube_api := youtube_api s;
     reddit := r;
     youtube_videos := youtube_videos s;
     reddit_posts := reddit_posts s;
     last_sync_time := last_sync_time s;
     sync_interval := sync_interval s;
     oauth_state := oauth_state s;
     oauth_flow := oauth_flow s |}.

Definition set_youtube_videos (v : list video) (s : session_state) :=
  {| youtube_credentials := youtube_credentials s;
     reddit_access_token := reddit_access_token s;
     youtube_api := youtube_api s;
     reddit := reddit s;
     youtube_videos := v;
     reddit_posts := reddit_posts s;
     last_sync_time := last_sync_time s;
     sync_interval := sync_interval s;
     oauth_state := oauth_state s;
     oauth_flow := oauth_flow s |}.

Definition set_reddit_posts (p : list post) (s : session_state) :=
  {| youtube_credentials := youtube_credentials s;
     reddit_access_token := reddit_access_token s;
     youtube_api := youtube_api s;
     reddit := reddit s;
     youtube_videos := youtube_videos s;
     reddit_posts := p;
     last_sync_time := last_sync_time s;
     sync_interval := sync_interval s;
     oauth_state := oauth_state s;
     oauth_flow := oauth_flow s |}.

Definition set_last_sync_time (t : Z) (s : session_state) :=
  {| youtube_credentials := youtube_credentials s;
     reddit_access_token := reddit_access_token s;
     youtube_api := youtube_api s;
     reddit := reddit s;
     youtube_videos := youtube_videos s;
     reddit_posts := reddit_posts s;
     last_sync_time := t;
     sync_interval := sync_interval s;
     oauth_state := oauth_state s;
     oauth_flow := oauth_flow s |}.

Definition set_oauth (st : string) (f : oauth_flow_obj) (s : session_state) :=
  {| youtube_credentials := youtube_credentials s;
     reddit_access_token := reddit_access_token s;
     youtube_api := youtube_api s;
     reddit := reddit s;
     youtube_videos := youtube_videos s;
     reddit_posts := reddit_posts s;
     last_sync_time := last_sync_time s;
     sync_interval := sync_interval s;
     oauth_state := Some st;
     oauth_flow := Some f |}.

(** The application state a script fragment works on: the session state
    and [st.query_params]. *)
Record app_state := App {
  session : session_state;
  query_params : gmap string string
}.

(** ** What a run leaves behind *)

Inductive container := MainArea | Tab1 | Tab2 | Sidebar.

Inductive widget :=
| StTitle (text : string)
| StTabs (labels : list string)
| StHeader (text : string)
| StWrite (text : string)
| StWriteLastSynced (t : Z)
| StMarkdown (text : string)
| StMarkdownVideo (title : json) (url : fstring json)
| StImage (src : json) (width : Z)
| StButton (label : string).

(** What a run leaves on the page and on the wire: an element drawn in a
    container, an [st.error] box, and [Request p] each time the content
    fetcher of provider [p] is entered and calls the vendor. *)
Inductive event :=
| Draw (c : container) (w : widget)
| StError (msg : fstring exn)
| Request (p : provider).

(** How a fragment ends.  [Rerun] and [Stop] are Streamlit's
    [RerunException] and [StopException]; both derive from
    [BaseException], so an [except Exception] clause lets them through. *)
Inductive outcome (A : Type) :=
| Return (a : A)
| Raise (e : exn)
| Rerun
| Stop.
Arguments Return {A} _.
Arguments Raise {A} _.
Arguments Rerun {A}.
Arguments Stop {A}.

Record run_result (A : Type) := Ran {
  ended : outcome A;
  final : app_state;
  trace : list event
}.
Arguments Ran {A} _ _ _.
Arguments ended {A} _.
Arguments final {A} _.
Arguments trace {A} _.

Definition script (A : Type) : Type := app_state -> run_result A.

Definition ret {A} (a : A) : script A := fun st => Ran (Return a) st [].

Definition bind {A B} (m : script A) (k : A -> script B) : script B :=
  fun st =>
    match m st with
    | Ran (Return a) st' t =>
        match k a st' with
        | Ran o st'' t' => Ran o st'' (t ++ t')
        end
    | Ran (Raise e) st' t => Ran (Raise e) st' t
    | Ran Rerun st' t => Ran Rerun st' t
    | Ran Stop st' t => Ran Stop st' t
    end.

Declare Scope script_scope.
Delimit Scope script_scope with script.
Notation "x <- m ;; k" := (bind m (fun x => k))
  (at level 100, m at next level, k at level 200, right associativity) : script_scope.
Notation "m ;; k" := (bind m (fun _ => k))
  (at level 100, k at level 200, right associativity) : script_scope.
Local Open Scope script_scope.

Definition raise {A} (e : exn) : script A := fun st => Ran (Raise e) st [].
Definition st_rerun {A} : script A := fun st => Ran Rerun st [].
Definition st_stop {A} : script A := fun st => Ran Stop st [].
Definition emit (ev : event) : script unit := fun st => Ran (Return tt) st [ev].
Definition draw (c : container) (w : widget) : script unit := emit (Draw c w).
Definition st_error (msg : fstring exn) : script unit := emit (StError msg).
Definition read : script session_state := fun st => Ran (Return (session st)) st [].
Definition params : script (gmap string string) :=
  fun st => Ran (Return (query_params st)) st [].
Definition update (f : session_state -> session_state) : script unit :=
  fun st => Ran (Return tt) (App (f (session st)) (query_params st)) [].
Definition query_params_clear : script unit :=
  fun st => Ran (Return tt) (App (session st) ∅) [].
Definition lift {A} (r : result A) : script A :=
  match r with
  | inl e => raise e
  | inr a => ret a
  end.

(** [try: body except <handles> as e: handler e].  Only exceptions are
    offered to the clause; the control signals pass. *)
Definition try_except {A} (body : script A) (handles : exn -> bool)
    (handler : exn -> script A) : script A :=
  fun st =>
    match body st with
    | Ran (Raise e) st' t =>
        if handles e then
          match handler e st' with
          | Ran o st'' t' => Ran o st'' (t ++ t')
          end
        else Ran (Raise e) st' t
    | r => r
    end.

Definition is_HttpError (e : exn) : bool :=
  match e with
  | HttpError _ => true
  | _ => false
  end.

Definition is_Exception (e : exn) : bool := true.

(** ** Content fetchers *)

(** What [youtube_api.videos().list(...)] followed by [request.execute()]
    does: it returns the decoded response or raises. *)
Inductive execute_outcome :=
| Executes (response : json)
| ExecuteRaises (e : exn).

(** One element of the listing [reddit.user.me().saved(limit=10)]: a
    submission has a [title], a comment has none. *)
Inductive saved_item :=
| Submission (title permalink subreddit_display_name : string)
| Comment (body : string).

(** The listing either runs to its end or raises after some elements. *)
Inductive saved_outcome :=
| Yields (items : list saved_item)
| YieldsThenRaises (items : list saved_item) (e : exn).

(** The dict built in the loop body of [fetch_youtube_saved_videos]; its
    three values are evaluated in source order. *)
Definition video_of_item (item : json) : result video :=
  rbind (subscript item "snippet") (fun snippet =>
  rbind (subscript snippet "title") (fun title =>
  rbind (subscript item "id") (fun id =>
  rbind (subscript item "snippet") (fun snippet' =>
  rbind (subscript snippet' "thumbnails") (fun thumbnails =>
  rbind (subscript thumbnails "default") (fun default =>
  rbind (subscript default "url") (fun url =>
  inr {| video_title := title;
         video_url := FString "https://www.youtube.com/watch?v=" id "";
         video_thumbnail := url |}))))))).

Fixpoint videos_of_items (items : list json) : result (list video) :=
  match items with
  | [] => inr []
  | item :: rest =>
      rbind (video_of_item item) (fun v =>
      rbind (videos_of_items rest) (fun vs => inr (v :: vs)))
  end.

Definition fetch_youtube_saved_videos (world : execute_outcome)
    (youtube_api : youtube_resource) : script (list video) :=
  try_except
    (emit (Request YouTube) ;;
     response <- match world with
                 | Executes response => ret response
                 | ExecuteRaises e => raise e
                 end ;;
     items <- lift (rbind (dict_get response "items" (JArr [])) iterate) ;;
     lift (videos_of_items items))
    is_HttpError
    (fun e =>
       st_error (FString "Error fetching YouTube videos: " e "") ;;
       ret []).

Fixpoint posts_of_saved (items : list saved_item) : list post :=
  match items with
  | [] => []
  | Submission title permalink subreddit :: rest =>
      {| post_title := title; post_url := permalink; post_subreddit := subreddit |}
        :: posts_of_saved rest
  | Comment _ :: rest => posts_of_saved rest
  end.

Definition fetch_reddit_saved_posts (world : saved_outcome)
    (reddit : reddit_instance) : script (list post) :=
  try_except
    (emit (Request Reddit) ;;
     match world with
     | Yields items => ret (posts_of_saved items)
     | YieldsThenRaises _ e => raise e
     end)
    is_Exception
    (fun e =>
       st_error (FString "Error fetching Reddit posts: " e "") ;;
       ret []).

(** ** Sync scheduler *)

(** What one call of [sync_content] meets outside the session state: the
    reading of [time.time()] and the vendors' answers should it fetch.
    Clock readings are whole seconds; only their order and differences
    matter below. *)
Record sync_world := SyncWorld {
  time_time : Z;
  videos_list : execute_outcome;
  saved : saved_outcome
}.

Definition sync_content (w : sync_world) : script unit :=
  let current_time := time_time w in
  s <- read ;;
  if current_time - last_sync_time s >=? sync_interval s then
    (match youtube_api s with
     | Some api =>
         videos <- fetch_youtube_saved_videos (videos_list w) api ;;
         update (set_youtube_videos videos)
     | None => ret tt
     end) ;;
    s' <- read ;;
    (match reddit s' with
     | Some r =>
         posts <- fetch_reddit_saved_posts (saved w) r ;;
         update (set_reddit_posts posts)
     | None => ret tt
     end) ;;
    update (set_last_sync_time current_time)
  else ret tt.

(** ** Secrets *)

(** The four module-level constants read from [st.secrets]. *)
Record config := Config {
  YOUTUBE_CLIENT_SECRET_JSON : string;
  REDDIT_CLIENT_ID : string;
  REDDIT_CLIENT_SECRET : string;
  REDDIT_USER_AGENT : string
}.

Definition REDDIT_REDIRECT_URI : string := "http://localhost:8501".
Definition YOUTUBE_SCOPES : list string :=
  ["https://www.googleapis.com/auth/youtube.readonly"].
Definition YOUTUBE_API_SERVICE_NAME : string := "youtube".
Definition YOUTUBE_API_VERSION : string := "v3".

(** A top-level entry of the secrets file: a scalar ([youtube = "..."])
    or a table of strings ([[youtube]] followed by its keys). *)
Inductive secrets_entry :=
| Scalar (value : string)
| Table (entries : gmap string string).

(** [st.secrets[section][key]].  [st.secrets] is [None] when no secrets
    file exists: the first subscript then raises [FileNotFoundError].
    Otherwise the first subscript raises [KeyError] on an absent section,
    and the second raises [TypeError] on a scalar ([str] has no string
    keys) and [KeyError] on a key absent from the table. *)
Definition secret (secrets : option (gmap string secrets_entry))
    (section key : string) : result string :=
  match secrets with
  | None => inl (FileNotFoundError "No secrets found")
  | Some file =>
      match file !! section with
      | None => inl (KeyError section)
      | Some (Scalar _) => inl (TypeError "string indices must be integers")
      | Some (Table table) =>
          match table !! key with
          | None => inl (KeyError key)
          | Some value => inr value
          end
      end
  end.

Definition is_KeyError (e : exn) : bool :=
  match e with
  | KeyError _ => true
  | _ => false
  end.

Definition missing_secret (e : exn) : fstring exn :=
  FString "Missing secret: " e
    ". Please configure secrets.toml with YouTube and Reddit credentials.".

Definition load_secrets (secrets : option (gmap string secrets_entry)) : script config :=
  try_except
    (a <- lift (secret secrets "youtube" "client_secret_json") ;;
     b <- lift (secret secrets "reddit" "client_id") ;;
     c <- lift (secret secrets "reddit" "client_secret") ;;
     d <- lift (secret secrets "reddit" "user_agent") ;;
     ret (Config a b c d))
    is_KeyError
    (fun e => st_error (missing_secret e) ;; st_stop).

(** ** OAuth session manager *)

Definition get_youtube_api (c : credentials) : youtube_resource :=
  Build YOUTUBE_API_SERVICE_NAME YOUTUBE_API_VERSION c.

(** Building the flow from the client-secret document and asking it for
    the authorization URL: the library returns the URL with a fresh
    [state], or raises (for instance on a malformed document).  The
    temporary file written and unlinked around it touches neither the
    session state nor the page. *)
Inductive flow_outcome :=
| Authorization (authorization_url state : string)
| FlowRaises (e : exn).

Definition youtube_login (cfg : config) (world : flow_outcome) : script unit :=
  match world with
  | FlowRaises e => raise e
  | Authorization authorization_url state =>
      let flow := Flow (YOUTUBE_CLIENT_SECRET_JSON cfg) YOUTUBE_SCOPES "http://localhost:8501" in
      update (set_oauth state flow) ;;
      draw Tab1 (StMarkdown ("[Login to YouTube](" ++ authorization_url ++ ")"))
  end.

(** [auth_url] is what [reddit.auth.url(["identity", "read", "save"],
    "uniqueKey", "temporary")] computes. *)
Definition reddit_login (cfg : config) (auth_url : string) : script unit :=
  draw Tab2 (StMarkdown ("[Login to Reddit](" ++ auth_url ++ ")")).

(** [flow.fetch_token(code=...)]: the token endpoint answers with a
    credential, or the call raises. *)
Inductive fetch_token_outcome :=
| TokenFetched (c : credentials)
| FetchTokenRaises (e : exn).

Record youtube_callback_world := YouTubeCallbackWorld {
  fetch_token : fetch_token_outcome;
  youtube_callback_sync : sync_world
}.

(** [reddit.auth.authorize(code)] succeeds ([None]) or raises. *)
Record reddit_callback_world := RedditCallbackWorld {
  authorize : option exn;
  reddit_callback_sync : sync_world
}.

Definition handle_youtube_callback (w : youtube_callback_world) : script unit :=
  q <- params ;;
  match q !! "code", q !! "state" with
  | Some code, Some state =>
      s <- read ;;
      expected <- match oauth_state s with
                  | Some expected => ret expected
                  | None => raise (AttributeError "oauth_state")
                  end ;;
      if String.eqb state expected then
        s <- read ;;
        flow <- match oauth_flow s with
                | Some flow => ret flow
                | None => raise (AttributeError "oauth_flow")
                end ;;
        c <- match fetch_token w with
             | TokenFetched c => ret c
             | FetchTokenRaises e => raise e
             end ;;
        update (set_youtube_credentials (Some c)) ;;
        update (set_youtube_api (Some (get_youtube_api c))) ;;
        query_params_clear ;;
        sync_content (youtube_callback_sync w) ;;
        st_rerun
      else ret tt
  | _, _ => ret tt
  end.

Definition handle_reddit_callback (cfg : config) (w : reddit_callback_world) : script unit :=
  q <- params ;;
  match q !! "code" with
  | Some code =>
      try_except
        (let reddit :=
           PrawReddit (REDDIT_CLIENT_ID cfg) (REDDIT_CLIENT_SECRET cfg)
                      REDDIT_REDIRECT_URI (REDDIT_USER_AGENT cfg) code in
         match authorize w with
         | None => ret tt
         | Some e => raise e
         end ;;
         update (set_reddit (Some reddit)) ;;
         query_params_clear ;;
         sync_content (reddit_callback_sync w) ;;
         st_rerun)
        is_Exception
        (fun e => st_error (FString "Reddit login failed: " e ""))
  | None => ret tt
  end.

(** ** View renderer *)

Fixpoint draw_videos (videos : list video) : script unit :=
  match videos with
  | [] => ret tt
  | v :: rest =>
      draw Tab1 (StImage (video_thumbnail v) 120) ;;
      draw Tab1 (StMarkdownVideo (video_title v) (video_url v)) ;;
      draw_videos rest
  end.

Fixpoint draw_posts (posts : list post) : script unit :=
  match posts with
  | [] => ret tt
  | p :: rest =>
      draw Tab2 (StMarkdown ("**" ++ post_title p ++ "** (r/" ++ post_subreddit p ++ ")")) ;;
      draw Tab2 (StMarkdown ("[Link](https://reddit.com" ++ post_url p ++ ")")) ;;
      draw_posts rest
  end.

Definition youtube_tab (cfg : config) (world : flow_outcome) : script unit :=
  draw Tab1 (StHeader "YouTube Saved Videos") ;;
  s <- read ;;
  match youtube_credentials s with
  | None =>
      draw Tab1 (StWrite "Please log in to view your saved YouTube videos.") ;;
      youtube_login cfg world
  | Some _ =>
      match youtube_videos s with
      | [] => draw Tab1 (StWrite "No saved videos found or an error occurred.")
      | videos => draw_videos videos
      end ;;
      s <- read ;;
      draw Tab1 (StWriteLastSynced (last_sync_time s))
  end.

Definition reddit_tab (cfg : config) (auth_url : string) : script unit :=
  draw Tab2 (StHeader "Reddit Saved Posts") ;;
  s <- read ;;
  match reddit s with
  | None =>
      draw Tab2 (StWrite "Please log in to view your saved Reddit posts.") ;;
      reddit_login cfg auth_url
  | Some _ =>
      match reddit_posts s with
      | [] => draw Tab2 (StWrite "No saved posts found or an error occurred.")
      | posts => draw_posts posts
      end ;;
      s <- read ;;
      draw Tab2 (StWriteLastSynced (last_sync_time s))
  end.

(** ** Sidebar controls *)

(** [st.sidebar.button(label)]: draws the button and tells whether this
    run was caused by a click on it. *)
Definition button (clicked : string -> bool) (label : string) : script bool :=
  draw Sidebar (StButton label) ;;
  ret (clicked label).

(** The body of the "Sync Now" branch. *)
Definition sync_now (w : sync_world) : script unit :=
  update (set_last_sync_time 0) ;;
  sync_content w ;;
  st_rerun.

(** The bodies of the two logout branches. *)
Definition logout (p : provider) : script unit :=
  match p with
  | YouTube =>
      update (set_youtube_credentials None) ;;
      update (set_youtube_api None) ;;
      update (set_youtube_videos []) ;;
      st_rerun
  | Reddit =>
      update (set_reddit None) ;;
      update (set_reddit_posts []) ;;
      st_rerun
  end.

Definition truthy {A} (o : option A) : bool :=
  match o with
  | Some _ => true
  | None => false
  end.

Definition logout_controls (clicked : string -> bool) : script unit :=
  s <- read ;;
  if truthy (youtube_credentials s) || truthy (reddit s) then
    draw Sidebar (StHeader "Logout") ;;
    s <- read ;;
    (if truthy (youtube_credentials s)
     then (pressed <- button clicked "Logout YouTube" ;;
           if pressed then logout YouTube else ret tt)
     else ret tt) ;;
    s <- read ;;
    (if truthy (reddit s)
     then (pressed <- button clicked "Logout Reddit" ;;
           if pressed then logout Reddit else ret tt)
     else ret tt)
  else ret tt.

Definition sidebar (clicked : string -> bool) (manual : sync_world) : script unit :=
  draw Sidebar (StHeader "Controls") ;;
  pressed <- button clicked "Sync Now" ;;
  (if pressed then sync_now manual else ret tt) ;;
  logout_controls clicked.

(** The last statement of the script, "Auto-sync in background":
    [end_time] is the reading of [time.time()] taken there. *)
Definition auto_sync (end_time : Z) : script unit :=
  s <- read ;;
  if truthy (youtube_credentials s) || truthy (reddit s) then
    if end_time - last_sync_time s >=? sync_interval s then st_rerun else ret tt
  else ret tt.

(** ** One run of the script *)

Record run_world := RunWorld {
  youtube_callback : youtube_callback_world;
  reddit_callback : reddit_callback_world;
  scheduled_sync : sync_world;
  login_flow : flow_outcome;
  reddit_auth_url : string;
  clicks : string -> bool;
  manual_sync : sync_world;
  end_time : Z
}.

(** The script from top to bottom.  [st.set_page_config] and the session
    initialisation leave nothing on the page and, after the first run,
    nothing in the session. *)
Definition Main (secrets : option (gmap string secrets_entry)) (w : run_world) : script unit :=
  cfg <- load_secrets secrets ;;
  draw MainArea (StTitle "Saved Content Viewer") ;;
  handle_youtube_callback (youtube_callback w) ;;
  handle_reddit_callback cfg (reddit_callback w) ;;
  sync_content (scheduled_sync w) ;;
  draw MainArea (StTabs ["YouTube"; "Reddit"]) ;;
  youtube_tab cfg (login_flow w) ;;
  reddit_tab cfg (reddit_auth_url w) ;;
  sidebar (clicks w) (manual_sync w) ;;
  auto_sync (end_time w).

(** The session states the program can be in between two runs: a new
    session, and whatever a run leaves when started from a reachable state
    with any request and any behaviour of the outside world, however the
    run ends. *)
Inductive reachable (secrets : option (gmap string secrets_entry)) : session_state -> Prop :=
| reachable_new : reachable secrets new_session
| reachable_run s q w :
    reachable secrets s ->
    reachable secrets (session (final (Main secrets w (App s q)))).

(** ** Observations used by the properties *)

(** The session state a fragment leaves when started in session [s] on a
    request with parameters [q]. *)
Definition after {A} (m : script A) (s : session_state) (q : gmap string string)
  : session_state :=
  session (final (m (App s q))).

(** Credential of a provider, as the renderer and the logout controls
    test it. *)
Definition credential (p : provider) (s : session_state) : bool :=
  match p with
  | YouTube => truthy (youtube_credentials s)
  | Reddit => truthy (reddit s)
  end.

(** Live credential of a provider, as the scheduler tests it: for YouTube
    the API client built from the credential. *)
Definition live_credential (p : provider) (s : session_state) : bool :=
  match p with
  | YouTube => truthy (youtube_api s)
  | Reddit => truthy (reddit s)
  end.

Definition saved_items (p : provider) (s : session_state) : nat :=
  match p with
  | YouTube => length (youtube_videos s)
  | Reddit => length (reddit_posts s)
  end.

(** The data-model invariant: saved items only under a credential. *)
Definition items_need_credential (s : session_state) : Prop :=
  forall p, saved_items p s <> 0%nat -> credential p s = true.

(** The invariant together with what makes it inductive: the YouTube API
    client exists exactly when the YouTube credential does. *)
Definition consistent (s : session_state) : Prop :=
  items_need_credential s /\
  truthy (youtube_api s) = truthy (youtube_credentials s).

Definition is_request (p : provider) (ev : event) : bool :=
  match ev, p with
  | Request YouTube, YouTube => true
  | Request Reddit, Reddit => true
  | _, _ => false
  end.

(** Number of vendor requests for [p] in a trace. *)
Definition requests (p : provider) (t : list event) : nat :=
  length (List.filter (is_request p) t).

(** The scheduler's two states. *)
Definition stale (now : Z) (s : session_state) : Prop :=
  sync_interval s <= now - last_sync_time s.

Definition fresh (now : Z) (s : session_state) : Prop :=
  now - last_sync_time s < sync_interval s.

(** What the body of [fetch_youtube_saved_videos] computes before any
    [except] clause is consulted. *)
Definition liked_videos (world : execute_outcome) : result (list video) :=
  match world with
  | Executes response =>
      rbind (rbind (dict_get response "items" (JArr [])) iterate) videos_of_items
  | ExecuteRaises e => inl e
  end.

(** The YouTube fetcher lets the exception of this answer through. *)
Definition escapes (world : execute_outcome) : bool :=
  match liked_videos world with
  | inl e => negb (is_HttpError e)
  | inr _ => false
  end.

(** A fragment that keeps [I] true of the session state, however it ends. *)
Definition preserves {A} (I : session_state -> Prop) (m : script A) : Prop :=
  forall st, I (session st) -> I (session (final (m st))).

(** A fragment that never asks for a re-execution. *)
Definition never_reruns {A} (m : script A) : Prop :=
  forall st, ended (m st) <> Rerun.

(** The required configuration values, in the order the script reads them. *)
Definition required : list (string * string) :=
  [("youtube", "client_secret_json"); ("reddit", "client_id");
   ("reddit", "client_secret"); ("reddit", "user_agent")].

Definition configured (secrets : option (gmap string secrets_entry))
    (k : string * string) : bool :=
  match secret secrets (fst k) (snd k) with
  | inr _ => true
  | inl _ => false
  end.

(** The first required value that is absent, if any. *)
Definition first_absent (secrets : option (gmap string secrets_entry))
  : option (string * string) :=
  List.find (fun k => negb (configured secrets k)) required.

(** The key the lookup of the absent value [k] stumbles on in the secrets
    file: the table name when the whole table is absent, the key inside
    the table otherwise. *)
Definition absent_key (file : gmap string secrets_entry)
    (k : string * string) : string :=
  match file !! fst k with
  | None => fst k
  | Some _ => snd k
  end.

(** Every section the script reads is, when present, a table. *)
Definition sections_are_tables (file : gmap string secrets_entry) : Prop :=
  forall k value, In k required -> file !! fst k <> Some (Scalar value).

(** The exception raised by the first of the four reads that fails, if
    any. *)
Fixpoint first_failure (secrets : option (gmap string secrets_entry))
    (ks : list (string * string)) : option exn :=
  match ks with
  | [] => None
  | k :: rest =>
      match secret secrets (fst k) (snd k) with
      | inl e => Some e
      | inr _ => first_failure secrets rest
      end
  end.

Definition read_failure (secrets : option (gmap string secrets_entry)) : option exn :=
  first_failure secrets required.

(** An error is shown inline. *)
Definition shows_error (t : list event) : Prop :=
  exists msg, In (StError msg) t.

(** A run caused neither by an OAuth redirect nor by a button. *)
Definition without_interaction (q : gmap string string) (w : run_world) : Prop :=
  q !! "code" = None /\ forall label, clicks w label = false.

(** Some provider is logged in, as the last statement of the script
    tests it. *)
Definition logged_in_somewhere (s : session_state) : bool :=
  credential YouTube s || credential Reddit s.

(** ** Sample configurations, requests and answers *)

Definition sample_secrets : option (gmap string secrets_entry) :=
  Some {[ "youtube" := Table {[ "client_secret_json" := "{'installed': {}}" ]};
          "reddit" := Table {[ "client_id" := "abc123";
                               "client_secret" := "s3cr3t";
                               "user_agent" := "saved-hub" ]} ]}.

Definition secrets_without_reddit_client_secret : gmap string secrets_entry :=
  {[ "youtube" := Table {[ "client_secret_json" := "{'installed': {}}" ]};
     "reddit" := Table {[ "client_id" := "abc123";
                          "user_agent" := "saved-hub" ]} ]}.

Definition sample_config : config :=
  Config "{'installed': {}}" "abc123" "s3cr3t" "saved-hub".

(** A well-formed answer of the videos-list endpoint with one liked video. *)
Definition liked_response : json :=
  JObj [("kind", JStr "youtube#videoListResponse");
        ("items",
         JArr [JObj [("id", JStr "dQw4w9WgXcQ");
                     ("snippet",
                      JObj [("title", JStr "A liked video");
                            ("thumbnails",
                             JObj [("default",
                                    JObj [("url", JStr "https://i.ytimg.com/vi/dQw4w9WgXcQ/default.jpg")])])])]])].

(** An answer whose item lacks the [snippet] part. *)
Definition response_without_snippet : json :=
  JObj [("items", JArr [JObj [("id", JStr "dQw4w9WgXcQ")]])].

Definition sample_saved : saved_outcome :=
  Yields [Submission "A saved post" "/r/rocq/comments/1/a_saved_post/" "rocq";
          Comment "a saved comment"].

Definition sample_video : video :=
  {| video_title := JStr "A liked video";
     video_url := FString "https://www.youtube.com/watch?v=" (JStr "dQw4w9WgXcQ") "";
     video_thumbnail := JStr "https://i.ytimg.com/vi/dQw4w9WgXcQ/default.jpg" |}.

Definition sample_credentials : credentials := Credentials "ya29.a0Af".

Definition sample_reddit : reddit_instance :=
  PrawReddit "abc123" "s3cr3t" REDDIT_REDIRECT_URI "saved-hub" "code-from-reddit".

(** Both vendors answer well at clock reading [t]. *)
Definition vendors_up (t : Z) : sync_world :=
  SyncWorld t (Executes liked_response) sample_saved.

(** The YouTube request fails below the HTTP layer at clock reading [t]. *)
Definition youtube_unreachable (t : Z) : sync_world :=
  SyncWorld t (ExecuteRaises (OtherException "timed out")) sample_saved.

Definition no_clicks : string -> bool := fun _ => false.

(** A run that starts at clock reading [t] and ends at [t_end], with no
    button pressed, every vendor answering well and the login flow handing
    out the state [xyz]. *)
Definition run_at (t t_end : Z) : run_world :=
  {| youtube_callback := YouTubeCallbackWorld (TokenFetched sample_credentials) (vendors_up t);
     reddit_callback := RedditCallbackWorld None (vendors_up t);
     scheduled_sync := vendors_up t;
     login_flow := Authorization "https://accounts.google.com/o/oauth2/auth?state=xyz" "xyz";
     reddit_auth_url := "https://www.reddit.com/api/v1/authorize?state=uniqueKey";
     clicks := no_clicks;
     manual_sync := vendors_up t;
     end_time := t_end |}.

Definition youtube_redirect : gmap string string :=
  {[ "code" := "4/0AfJohX"; "state" := "xyz" ]}.

Definition reddit_redirect : gmap string string :=
  {[ "code" := "code-from-reddit"; "state" := "uniqueKey" ]}.

(** The session after a first visit at 1700000000 s: nobody is logged in,
    the login link with state [xyz] has been drawn. *)
Definition visited : session_state :=
  after (Main sample_secrets (run_at 1700000000 1700000000)) new_session ∅.

(** The session after the YouTube redirect arrives 100 s later. *)
Definition logged_in : session_state :=
  after (Main sample_secrets (run_at 1700000100 1700000100)) visited youtube_redirect.

(** The session after the Reddit redirect arrives another 100 s later:
    logged in to both providers, synced at 1700000200 s. *)
Definition both_logged_in : session_state :=
  {| youtube_credentials := Some sample_credentials;
     reddit_access_token := None;
     youtube_api := Some (get_youtube_api sample_credentials);
     reddit := Some sample_reddit;
     youtube_videos := [sample_video];
     reddit_posts := [Post "A saved post" "/r/rocq/comments/1/a_saved_post/" "rocq"];
     last_sync_time := 1700000200;
     sync_interval := 60;
     oauth_state := Some "xyz";
     oauth_flow := Some (Flow "{'installed': {}}" YOUTUBE_SCOPES "http://localhost:8501") |}.

(** ** The scheduler properties as the specification words them *)

(** Every provider with a live credential in [s] is asked in the
    evaluation [r] started there. *)
Definition asks_every_live_provider (s : session_state) (r : run_result unit) : Prop :=
  forall p, live_credential p s = true -> In (Request p) (trace r).

(** At most one request per provider in a trace. *)
Definition at_most_one_request_each (t : list event) : Prop :=
  forall p, (requests p t <= 1)%nat.

(** ** Further observations *)

(** A response item from which the loop body of
    [fetch_youtube_saved_videos] can build its dict. *)
Definition well_formed (item : json) : Prop :=
  exists v, video_of_item item = inr v.

(** The post a saved item contributes, if it is a submission. *)
Definition post_of_saved (item : saved_item) : option post :=
  match item with
  | Submission title permalink subreddit => Some (Post title permalink subreddit)
  | Comment _ => None
  end.


(** The two elements drawn for a video, and for a post. *)
Definition video_rows (v : video) : list event :=
  [Draw Tab1 (StImage (video_thumbnail v) 120);
   Draw Tab1 (StMarkdownVideo (video_title v) (video_url v))].

Definition post_rows (p : post) : list event :=
  [Draw Tab2 (StMarkdown ("**" ++ post_title p ++ "** (r/" ++ post_subreddit p ++ ")"));
   Draw Tab2 (StMarkdown ("[Link](https://reddit.com" ++ post_url p ++ ")"))].

(** The session right after a successful YouTube login, and after each
    logout. *)
Definition youtube_logged_in (c : credentials) (s : session_state) : session_state :=
  set_youtube_api (Some (get_youtube_api c)) (set_youtube_credentials (Some c) s).

Definition youtube_logged_out (s : session_state) : session_state :=
  set_youtube_videos [] (set_youtube_api None (set_youtube_credentials None s)).

Definition reddit_logged_out (s : session_state) : session_state :=
  set_reddit_posts [] (set_reddit None s).

(** A property of the session state that every assignment group of the
    script keeps: the item lists, the timestamp and the pending
    authorization may change freely, and so may a login or a logout taken
    as a whole. *)
Definition stable (I : session_state -> Prop) : Prop :=
  (forall v s, I s -> I (set_youtube_videos v s)) /\
  (forall p s, I s -> I (set_reddit_posts p s)) /\
  (forall t s, I s -> I (set_last_sync_time t s)) /\
  (forall x f s, I s -> I (set_oauth x f s)) /\
  (forall c s, I s -> I (youtube_logged_in c s)) /\
  (forall r s, I s -> I (set_reddit (Some r) s)) /\
  (forall s, I s -> I (youtube_logged_out s)) /\
  (forall s, I s -> I (reddit_logged_out s)).

(** The settings no statement of the script assigns after initialisation. *)
Definition settings_untouched (s : session_state) : Prop :=
  sync_interval s = 60 /\ reddit_access_token s = None.

(** The YouTube client is the one built from the stored credential, and
    the pending flow is stored together with its state. *)
Definition client_matches_credential (s : session_state) : Prop :=
  youtube_api s = option_map get_youtube_api (youtube_credentials s) /\
  truthy (oauth_flow s) = truthy (oauth_state s).

(** The logout the sidebar performs, if any: a provider's button exists
    only while that provider is logged in, and YouTube's is looked at
    first. *)
Definition logout_choice (clicked : string -> bool) (s : session_state) : option provider :=
  if truthy (youtube_credentials s) && clicked "Logout YouTube" then Some YouTube
  else if truthy (reddit s) && clicked "Logout Reddit" then Some Reddit
  else None.

(** A fragment that, started without a live credential for [p], sends no
    request for [p] and ends without one. *)
Definition quiet {A} (p : provider) (m : script A) : Prop :=
  forall st,
    live_credential p (session st) = false ->
    requests p (trace (m st)) = 0%nat /\
    live_credential p (session (final (m st))) = false.

(** * Properties *)

(** Evaluation of the script combinators, the record projections and the
    setters, and of nothing else. *)
Ltac run_in_goal :=
  cbn [bind try_except ret raise st_rerun st_stop emit draw st_error read
       params update query_params_clear lift button
       ended final trace session query_params
       youtube_credentials reddit_access_token youtube_api reddit
       youtube_videos reddit_posts last_sync_time sync_interval
       oauth_state oauth_flow
       set_youtube_credentials set_youtube_api set_reddit set_youtube_videos
       set_reddit_posts set_last_sync_time set_oauth
       time_time videos_list saved
       is_HttpError is_Exception is_KeyError truthy negb orb andb
       credential live_credential saved_items length
       requests is_request List.filter app rbind fst snd].

Ltac run_in_hyp H :=
  cbn [bind try_except ret raise st_rerun st_stop emit draw st_error read
       params update query_params_clear lift button
       ended final trace session query_params
       youtube_credentials reddit_access_token youtube_api reddit
       youtube_videos reddit_posts last_sync_time sync_interval
       oauth_state oauth_flow
       set_youtube_credentials set_youtube_api set_reddit set_youtube_videos
       set_reddit_posts set_last_sync_time set_oauth
       time_time videos_list saved
       is_HttpError is_Exception is_KeyError truthy negb orb andb
       credential live_credential saved_items length
       requests is_request List.filter app rbind fst snd] in H.

Tactic Notation "run" := run_in_goal.
Tactic Notation "run" "in" hyp(H) := run_in_hyp H.

(** ** The monad *)

Lemma preserves_bind {A B} I (m : script A) (k : A -> script B) :
  preserves I m -> (forall a, preserves I (k a)) -> preserves I (bind m k).
Proof.
  intros Hm Hk st HI. unfold bind.
  specialize (Hm st HI).
  destruct (m st) as [[a | e | |] st' t]; run; auto.
  specialize (Hk a st' Hm).
  destruct (k a st') as [o st'' t']. exact Hk.
Qed.

Lemma preserves_pure {A} I (m : script A) :
  (forall st, final (m st) = st) -> preserves I m.
Proof. intros H st HI. rewrite H. exact HI. Qed.

Lemma preserves_update I f :
  (forall s, I s -> I (f s)) -> preserves I (update f).
Proof. intros H st HI. run. auto. Qed.

(** ** Content fetchers *)

Lemma fetch_youtube_saved_videos_eq world api st :
  fetch_youtube_saved_videos world api st =
  match liked_videos world with
  | inr videos => Ran (Return videos) st [Request YouTube]
  | inl e =>
      if is_HttpError e
      then Ran (Return []) st
             [Request YouTube; StError (FString "Error fetching YouTube videos: " e "")]
      else Ran (Raise e) st [Request YouTube]
  end.
Proof.
  unfold fetch_youtube_saved_videos, liked_videos, try_except.
  destruct world as [response | e]; run.
  - destruct (dict_get response "items" (JArr [])) as [e | items]; run.
    + destruct e; reflexivity.
    + destruct (iterate items) as [e | l]; run.
      * destruct e; reflexivity.
      * destruct (videos_of_items l) as [e | vs]; run.
        -- destruct e; reflexivity.
        -- reflexivity.
  - destruct e; reflexivity.
Qed.

Lemma fetch_reddit_saved_posts_eq world r st :
  fetch_reddit_saved_posts world r st =
  match world with
  | Yields items => Ran (Return (posts_of_saved items)) st [Request Reddit]
  | YieldsThenRaises _ e =>
      Ran (Return []) st
        [Request Reddit; StError (FString "Error fetching Reddit posts: " e "")]
  end.
Proof. destruct world; reflexivity. Qed.

(** ** Sync scheduler *)

Lemma geb_stale now s :
  (now - last_sync_time s >=? sync_interval s) = true <-> stale now s.
Proof. unfold stale. rewrite Z.geb_leb, Z.leb_le. reflexivity. Qed.

Lemma geb_fresh now s :
  (now - last_sync_time s >=? sync_interval s) = false <-> fresh now s.
Proof. unfold fresh. rewrite Z.geb_leb, Z.leb_gt. reflexivity. Qed.

(** Case analysis on one call of [sync_content]: the gate, the two
    credentials, the two answers. *)
Ltac sync_cases w st :=
  unfold sync_content, bind; run;
  destruct (time_time w - last_sync_time (session st) >=? sync_interval (session st)) eqn:Hgate;
  [ apply geb_stale in Hgate | apply geb_fresh in Hgate ]; run;
  [ destruct (youtube_api (session st)) as [api|] eqn:Hapi; run;
    [ rewrite fetch_youtube_saved_videos_eq;
      unfold escapes in *;
      destruct (liked_videos (videos_list w)) as [e|videos] eqn:Hliked;
      [ destruct (is_HttpError e) eqn:Hhttp | ]; run
    | ];
    (destruct (reddit (session st)) as [r|] eqn:Hreddit; run;
     [ rewrite ?fetch_reddit_saved_posts_eq;
       destruct (saved w) as [items | items e'] eqn:Hsaved; run
     | ])
  | ].

Lemma sync_content_fresh w st :
  fresh (time_time w) (session st) ->
  sync_content w st = Ran (Return tt) st [].
Proof.
  intros H. apply geb_fresh in H.
  unfold sync_content, bind; run. rewrite H. reflexivity.
Qed.

(** [sync_content] touches nothing but the two item lists and the
    timestamp, and an item list only under the credential it tests. *)
Lemma sync_content_frame w st :
  let r := sync_content w st in
  query_params (final r) = query_params st /\
  youtube_credentials (session (final r)) = youtube_credentials (session st) /\
  youtube_api (session (final r)) = youtube_api (session st) /\
  reddit (session (final r)) = reddit (session st) /\
  sync_interval (session (final r)) = sync_interval (session st) /\
  (youtube_api (session st) = None ->
   youtube_videos (session (final r)) = youtube_videos (session st)) /\
  (reddit (session st) = None ->
   reddit_posts (session (final r)) = reddit_posts (session st)).
Proof.
  sync_cases w st; run; rewrite ?Hapi, ?Hreddit; repeat split; congruence.
Qed.

Lemma sync_content_requests p w st :
  (requests p (trace (sync_content w st)) <= 1)%nat.
Proof.
  sync_cases w st; destruct p; run; lia.
Qed.

(** A stale evaluation that is not cut short by an exception escaping the
    YouTube fetcher returns and stamps the time. *)
Lemma sync_content_stale_returns w st :
  stale (time_time w) (session st) ->
  youtube_api (session st) = None \/ escapes (videos_list w) = false ->
  ended (sync_content w st) = Return tt /\
  last_sync_time (session (final (sync_content w st))) = time_time w.
Proof.
  unfold stale.
  sync_cases w st; run; intros Hs Hy; unfold fresh in *;
    try lia; try (split; reflexivity);
    destruct Hy as [Hy | Hy]; run in Hy; congruence.
Qed.

Lemma sync_content_asks_youtube w st :
  stale (time_time w) (session st) ->
  live_credential YouTube (session st) = true ->
  In (Request YouTube) (trace (sync_content w st)).
Proof.
  sync_cases w st; run; cbn [In]; unfold stale, fresh in *;
    intros; try discriminate; try lia; auto.
Qed.

Lemma sync_content_asks_reddit w st :
  stale (time_time w) (session st) ->
  live_credential Reddit (session st) = true ->
  youtube_api (session st) = None \/ escapes (videos_list w) = false ->
  In (Request Reddit) (trace (sync_content w st)).
Proof.
  sync_cases w st; run; cbn [In]; unfold stale, fresh in *;
    intros; try discriminate; try lia; intuition (try discriminate).
Qed.

(** A stale evaluation in which the YouTube request fails with an HTTP
    error. *)
Lemma sync_content_youtube_http_error w st client reason :
  stale (time_time w) (session st) ->
  youtube_api (session st) = Some client ->
  videos_list w = ExecuteRaises (HttpError reason) ->
  let r := sync_content w st in
  In (StError (FString "Error fetching YouTube videos: " (HttpError reason) "")) (trace r) /\
  youtube_videos (session (final r)) = [] /\
  (live_credential Reddit (session st) = true -> In (Request Reddit) (trace r)) /\
  last_sync_time (session (final r)) = time_time w /\
  ended r = Return tt.
Proof.
  intros Hs Ha Hw. revert Hs.
  sync_cases w st; run; cbn [In]; unfold stale, fresh in *; intros;
    try lia; try congruence;
    unfold liked_videos in Hliked; rewrite Hw in Hliked;
    try discriminate; injection Hliked as <-; try discriminate;
    repeat split; auto; discriminate.
Qed.

(** A stale evaluation in which Reddit is asked and its listing raises. *)
Lemma sync_content_reddit_error w st yielded err :
  In (Request Reddit) (trace (sync_content w st)) ->
  saved w = YieldsThenRaises yielded err ->
  let r := sync_content w st in
  In (StError (FString "Error fetching Reddit posts: " err "")) (trace r) /\
  reddit_posts (session (final r)) = [] /\
  (live_credential YouTube (session st) = true -> In (Request YouTube) (trace r)) /\
  last_sync_time (session (final r)) = time_time w /\
  ended r = Return tt.
Proof.
  intros Hasked Hw. revert Hasked.
  sync_cases w st; run; cbn [In]; unfold stale, fresh in *; intros;
    try congruence; try injection Hw as <- <-;
    repeat split; intros; auto 10; intuition discriminate.
Qed.

(** An evaluation that returns either found the state fresh and did
    nothing, or found it stale and stamped the time. *)
Lemma sync_content_returns w st :
  ended (sync_content w st) = Return tt ->
  (fresh (time_time w) (session st) /\ trace (sync_content w st) = []) \/
  (stale (time_time w) (session st) /\
   last_sync_time (session (final (sync_content w st))) = time_time w).
Proof.
  sync_cases w st; run; intros; try discriminate; auto.
Qed.

Lemma sync_content_no_credential w st :
  stale (time_time w) (session st) ->
  youtube_api (session st) = None ->
  reddit (session st) = None ->
  sync_content w st =
  Ran (Return tt)
      (App (set_last_sync_time (time_time w) (session st)) (query_params st)) [].
Proof.
  sync_cases w st; run; unfold stale, fresh in *; intros;
    try discriminate; try lia; reflexivity.
Qed.

Lemma requests_app p t1 t2 :
  requests p (t1 ++ t2) = (requests p t1 + requests p t2)%nat.
Proof. unfold requests. rewrite List.filter_app, List.length_app. reflexivity. Qed.

Lemma sync_content_never_reruns w : never_reruns (sync_content w).
Proof. intros st. sync_cases w st; discriminate. Qed.

(** ** The invariant *)

Lemma consistent_frame s s' :
  consistent s ->
  youtube_credentials s' = youtube_credentials s ->
  youtube_api s' = youtube_api s ->
  reddit s' = reddit s ->
  (youtube_api s = None -> youtube_videos s' = youtube_videos s) ->
  (reddit s = None -> reddit_posts s' = reddit_posts s) ->
  consistent s'.
Proof.
  intros [Hinv Hapi] Hc Ha Hr Hv Hp. split.
  - intros p Hne. destruct p; cbn in *.
    + rewrite Hc. destruct (youtube_api s) eqn:E.
      * rewrite <- Hapi. reflexivity.
      * apply (Hinv YouTube). cbn. rewrite <- Hv; auto.
    + rewrite Hr. pose proof (Hinv Reddit) as HR. cbn in HR.
      destruct (reddit s) eqn:E; [reflexivity |].
      apply HR. rewrite <- Hp; auto.
  - rewrite Ha, Hc. exact Hapi.
Qed.

Lemma consistent_new : consistent new_session.
Proof. split; [intros [] H; cbn in H; congruence | reflexivity]. Qed.

Lemma sync_content_consistent w : preserves consistent (sync_content w).
Proof.
  intros st H. pose proof (sync_content_frame w st) as F. cbn in F.
  destruct F as (_ & Hc & Ha & Hr & _ & Hv & Hp).
  eapply consistent_frame; eauto.
Qed.

Lemma set_last_sync_time_consistent t s :
  consistent s -> consistent (set_last_sync_time t s).
Proof. intros H. eapply consistent_frame; eauto. Qed.

Lemma set_oauth_consistent x f s :
  consistent s -> consistent (set_oauth x f s).
Proof. intros H. eapply consistent_frame; eauto. Qed.

Lemma login_consistent c s :
  consistent s ->
  consistent (set_youtube_api (Some (get_youtube_api c))
                (set_youtube_credentials (Some c) s)).
Proof.
  intros [Hinv _]. split; [| reflexivity].
  intros [] H; cbn in *; [reflexivity | apply (Hinv Reddit H)].
Qed.

Lemma set_reddit_consistent r s :
  consistent s -> consistent (set_reddit (Some r) s).
Proof.
  intros [Hinv Hapi]. split; [| exact Hapi].
  intros [] H; cbn in *; [apply (Hinv YouTube H) | reflexivity].
Qed.

Lemma logout_youtube_consistent s :
  consistent s ->
  consistent (set_youtube_videos []
                (set_youtube_api None (set_youtube_credentials None s))).
Proof.
  intros [Hinv _]. split; [| reflexivity].
  intros [] H; cbn in *; [congruence | apply (Hinv Reddit H)].
Qed.

Lemma logout_reddit_consistent s :
  consistent s -> consistent (set_reddit_posts [] (set_reddit None s)).
Proof.
  intros [Hinv Hapi]. split; [| exact Hapi].
  intros [] H; cbn in *; [apply (Hinv YouTube H) | congruence].
Qed.

Lemma handle_youtube_callback_consistent w :
  preserves consistent (handle_youtube_callback w).
Proof.
  intros [s q] H. unfold handle_youtube_callback, bind. run.
  destruct (q !! "code") as [code|]; [| exact H].
  destruct (q !! "state") as [state|]; [| exact H].
  run.
  destruct (oauth_state s) as [expected|]; run; [| exact H].
  destruct (String.eqb state expected); run; [| exact H].
  destruct (oauth_flow s) as [flow|]; run; [| exact H].
  destruct (fetch_token w) as [c | e]; run; [| exact H].
  set (st' := App _ _).
  assert (Hst' : consistent (session st')) by (apply login_consistent, H).
  pose proof (sync_content_consistent (youtube_callback_sync w) st' Hst') as Hsync.
  revert Hsync.
  destruct (sync_content (youtube_callback_sync w) st') as [[[] | e | |] st'' t''];
    run; trivial.
Qed.

Lemma handle_reddit_callback_consistent cfg w :
  preserves consistent (handle_reddit_callback cfg w).
Proof.
  intros [s q] H. unfold handle_reddit_callback, bind. run.
  destruct (q !! "code") as [code|]; [| exact H].
  unfold try_except. run.
  destruct (authorize w) as [e|]; run; [exact H |].
  set (st' := App _ _).
  assert (Hst' : consistent (session st')) by (apply set_reddit_consistent, H).
  pose proof (sync_content_consistent (reddit_callback_sync w) st' Hst') as Hsync.
  revert Hsync.
  destruct (sync_content (reddit_callback_sync w) st') as [[[] | e | |] st'' t''];
    run; trivial.
Qed.

Lemma sync_now_consistent w : preserves consistent (sync_now w).
Proof.
  unfold sync_now. apply preserves_bind.
  - apply preserves_update, set_last_sync_time_consistent.
  - intros _. apply preserves_bind; [apply sync_content_consistent |].
    intros _. apply preserves_pure. reflexivity.
Qed.

Lemma logout_consistent p : preserves consistent (logout p).
Proof.
  intros [s q] H. destruct p; run.
  - apply logout_youtube_consistent, H.
  - apply logout_reddit_consistent, H.
Qed.

(** ** Fragments that leave the session state alone *)

Lemma load_secrets_eq secrets st :
  load_secrets secrets st =
  match secret secrets "youtube" "client_secret_json",
        secret secrets "reddit" "client_id",
        secret secrets "reddit" "client_secret",
        secret secrets "reddit" "user_agent" with
  | inr a, inr b, inr c, inr d => Ran (Return (Config a b c d)) st []
  | inl e, _, _, _ | inr _, inl e, _, _ | inr _, inr _, inl e, _
  | inr _, inr _, inr _, inl e =>
      if is_KeyError e
      then Ran Stop st [StError (missing_secret e)]
      else Ran (Raise e) st []
  end.
Proof.
  unfold load_secrets, try_except, bind.
  destruct (secret secrets "youtube" "client_secret_json") as [e|a]; run;
    [destruct (is_KeyError e); reflexivity |].
  destruct (secret secrets "reddit" "client_id") as [e|b]; run;
    [destruct (is_KeyError e); reflexivity |].
  destruct (secret secrets "reddit" "client_secret") as [e|c]; run;
    [destruct (is_KeyError e); reflexivity |].
  destruct (secret secrets "reddit" "user_agent") as [e|d]; run;
    [destruct (is_KeyError e); reflexivity |].
  reflexivity.
Qed.

Lemma load_secrets_final secrets st : final (load_secrets secrets st) = st.
Proof.
  rewrite load_secrets_eq.
  repeat match goal with
         | |- context [match secret ?s ?a ?b with _ => _ end] => destruct (secret s a b)
         | |- context [if is_KeyError ?e then _ else _] => destruct (is_KeyError e)
         end; reflexivity.
Qed.

Lemma draw_videos_eq videos st :
  exists t, draw_videos videos st = Ran (Return tt) st t.
Proof.
  induction videos as [| v rest [t IH]]; [exists []; reflexivity |].
  eexists. cbn [draw_videos]. unfold bind; run. rewrite IH. reflexivity.
Qed.

Lemma draw_posts_eq posts st :
  exists t, draw_posts posts st = Ran (Return tt) st t.
Proof.
  induction posts as [| p rest [t IH]]; [exists []; reflexivity |].
  eexists. cbn [draw_posts]. unfold bind; run. rewrite IH. reflexivity.
Qed.

(** Either tab ends by returning or, for the YouTube tab, by the exception
    the login flow raised; the only thing it may store is the pending
    authorization. *)
Lemma youtube_tab_cases cfg world st :
  exists o t x,
    youtube_tab cfg world st = Ran o (App (x (session st)) (query_params st)) t /\
    o <> Rerun /\
    (x = id \/ exists state flow, x = set_oauth state flow).
Proof.
  destruct st as [s q]. unfold youtube_tab, bind; run.
  destruct (youtube_credentials s); run.
  - destruct (youtube_videos s) as [| v rest]; run.
    + exists (Return tt). eexists. exists id. repeat split; [discriminate | left; reflexivity].
    + destruct (draw_videos_eq (v :: rest) (App s q)) as [t ->]. run.
      exists (Return tt). eexists. exists id. repeat split; [discriminate | left; reflexivity].
  - destruct world as [url state | e]; run.
    + exists (Return tt). eexists. eexists. repeat split; [discriminate | right; eauto].
    + exists (Raise e). eexists. exists id. repeat split; [discriminate | left; reflexivity].
Qed.

Lemma reddit_tab_eq cfg url st :
  exists t, reddit_tab cfg url st = Ran (Return tt) st t.
Proof.
  destruct st as [s q]. unfold reddit_tab, bind; run.
  destruct (reddit s); run; [| eexists; reflexivity].
  destruct (reddit_posts s) as [| p rest]; run; [eexists; reflexivity |].
  destruct (draw_posts_eq (p :: rest) (App s q)) as [t ->]. run.
  eexists; reflexivity.
Qed.

Lemma youtube_tab_consistent cfg world : preserves consistent (youtube_tab cfg world).
Proof.
  intros st H. destruct (youtube_tab_cases cfg world st) as (o & t & x & -> & _ & Hx).
  run. destruct Hx as [-> | (state & flow & ->)]; [exact H |].
  apply set_oauth_consistent, H.
Qed.

Lemma reddit_tab_consistent cfg url : preserves consistent (reddit_tab cfg url).
Proof. intros st H. destruct (reddit_tab_eq cfg url st) as [t ->]. exact H. Qed.

Lemma logout_controls_consistent clicked :
  preserves consistent (logout_controls clicked).
Proof.
  intros [s q] H. unfold logout_controls, bind, button; run.
  destruct (youtube_credentials s) as [c|] eqn:Ec;
    destruct (reddit s) as [r|] eqn:Er; run; rewrite ?Ec, ?Er; run;
    repeat (match goal with
            | |- context [clicked ?l] => destruct (clicked l)
            end; run; rewrite ?Ec, ?Er; run);
    first [ exact H
          | apply logout_youtube_consistent, H
          | apply logout_reddit_consistent, H ].
Qed.

Lemma sidebar_consistent clicked manual :
  preserves consistent (sidebar clicked manual).
Proof.
  unfold sidebar.
  apply preserves_bind; [apply preserves_pure; reflexivity | intros _].
  apply preserves_bind; [apply preserves_pure; reflexivity | intros pressed].
  apply preserves_bind; [| intros _; apply logout_controls_consistent].
  destruct pressed; [apply sync_now_consistent | apply preserves_pure; reflexivity].
Qed.

Lemma auto_sync_final t st : final (auto_sync t st) = st.
Proof.
  unfold auto_sync, bind; run.
  destruct (truthy _ || truthy _); run; [| reflexivity].
  destruct (_ >=? _); reflexivity.
Qed.

Lemma Main_consistent secrets w : preserves consistent (Main secrets w).
Proof.
  unfold Main.
  apply preserves_bind; [apply preserves_pure, load_secrets_final | intros cfg].
  apply preserves_bind; [apply preserves_pure; reflexivity | intros _].
  apply preserves_bind; [apply handle_youtube_callback_consistent | intros _].
  apply preserves_bind; [apply handle_reddit_callback_consistent | intros _].
  apply preserves_bind; [apply sync_content_consistent | intros _].
  apply preserves_bind; [apply preserves_pure; reflexivity | intros _].
  apply preserves_bind; [apply youtube_tab_consistent | intros _].
  apply preserves_bind; [apply reddit_tab_consistent | intros _].
  apply preserves_bind; [apply sidebar_consistent | intros _].
  apply preserves_pure, auto_sync_final.
Qed.

Lemma reachable_consistent secrets s : reachable secrets s -> consistent s.
Proof.
  induction 1 as [| s q w _ IH]; [apply consistent_new |].
  apply (Main_consistent secrets w (App s q)), IH.
Qed.

(** ** Callback handlers *)

Lemma handle_youtube_callback_no_code w st :
  query_params st !! "code" = None ->
  handle_youtube_callback w st = Ran (Return tt) st [].
Proof.
  intros H. unfold handle_youtube_callback, bind. run. rewrite H.
  destruct st; reflexivity.
Qed.

Lemma handle_reddit_callback_no_code cfg w st :
  query_params st !! "code" = None ->
  handle_reddit_callback cfg w st = Ran (Return tt) st [].
Proof.
  intros H. unfold handle_reddit_callback, bind. run. rewrite H.
  destruct st; reflexivity.
Qed.

Lemma handle_reddit_callback_refused cfg w st code e :
  query_params st !! "code" = Some code ->
  authorize w = Some e ->
  handle_reddit_callback cfg w st =
  Ran (Return tt) st [StError (FString "Reddit login failed: " e "")].
Proof.
  intros Hc Ha. unfold handle_reddit_callback, bind, try_except. run.
  rewrite Hc, Ha. run. destruct st; reflexivity.
Qed.

Lemma handle_youtube_callback_mismatch w st code state expected :
  query_params st !! "code" = Some code ->
  query_params st !! "state" = Some state ->
  oauth_state (session st) = Some expected ->
  state <> expected ->
  handle_youtube_callback w st = Ran (Return tt) st [].
Proof.
  intros Hc Hs Ho Hne. unfold handle_youtube_callback, bind. run.
  rewrite Hc, Hs, Ho. run.
  apply String.eqb_neq in Hne. rewrite Hne.
  destruct st; reflexivity.
Qed.

Lemma handle_youtube_callback_refused w st e :
  fetch_token w = FetchTokenRaises e ->
  final (handle_youtube_callback w st) = st.
Proof.
  intros Hf. unfold handle_youtube_callback, bind. run. rewrite Hf.
  destruct (query_params st !! "code"); [| destruct st; reflexivity].
  destruct (query_params st !! "state"); [| destruct st; reflexivity].
  run.
  destruct (oauth_state (session st)) as [expected|]; run; [| destruct st; reflexivity].
  destruct (String.eqb _ expected); run; [| destruct st; reflexivity].
  destruct (oauth_flow (session st)); run; destruct st; reflexivity.
Qed.

(** ** Secrets *)

(** The reads as one: the configuration, or the exception of the first
    read that fails, which the [except KeyError] clause may or may not
    handle. *)
Lemma load_secrets_failure secrets st e :
  read_failure secrets = Some e ->
  load_secrets secrets st =
  if is_KeyError e
  then Ran Stop st [StError (missing_secret e)]
  else Ran (Raise e) st [].
Proof.
  rewrite load_secrets_eq.
  unfold read_failure, required. cbn [first_failure fst snd].
  destruct (secret secrets "youtube" "client_secret_json") as [e1|a];
    [intros [= <-]; reflexivity |].
  destruct (secret secrets "reddit" "client_id") as [e2|b];
    [intros [= <-]; reflexivity |].
  destruct (secret secrets "reddit" "client_secret") as [e3|c];
    [intros [= <-]; reflexivity |].
  destruct (secret secrets "reddit" "user_agent") as [e4|d];
    [intros [= <-]; reflexivity |].
  discriminate.
Qed.

Lemma load_secrets_success secrets st :
  read_failure secrets = None ->
  exists cfg, load_secrets secrets st = Ran (Return cfg) st [].
Proof.
  rewrite load_secrets_eq.
  unfold read_failure, required. cbn [first_failure fst snd].
  destruct (secret secrets "youtube" "client_secret_json"); [discriminate |].
  destruct (secret secrets "reddit" "client_id"); [discriminate |].
  destruct (secret secrets "reddit" "client_secret"); [discriminate |].
  destruct (secret secrets "reddit" "user_agent"); [discriminate |].
  eauto.
Qed.

(** The first absent value is the one whose read fails first. *)
Lemma first_absent_failure secrets :
  match first_absent secrets with
  | Some k => exists e, read_failure secrets = Some e /\
                        secret secrets (fst k) (snd k) = inl e
  | None => read_failure secrets = None
  end.
Proof.
  unfold first_absent, read_failure, configured.
  induction required as [| k rest IH]; [reflexivity |].
  cbn [List.find first_failure].
  destruct (secret secrets (fst k) (snd k)) as [e|v] eqn:E; cbn [negb].
  - exists e. rewrite E. split; reflexivity.
  - exact IH.
Qed.

(** In a secrets file whose sections are tables, the read of an absent
    value raises the [KeyError] of the key it stumbles on. *)
Lemma secret_absent file k e :
  In k required ->
  sections_are_tables file ->
  secret (Some file) (fst k) (snd k) = inl e ->
  e = KeyError (absent_key file k).
Proof.
  intros Hin Htables. unfold secret, absent_key.
  destruct (file !! fst k) as [[value | table]|] eqn:E.
  - destruct (Htables k value Hin E).
  - destruct (table !! snd k); [discriminate | intros [= <-]; reflexivity].
  - intros [= <-]. reflexivity.
Qed.

Lemma first_absent_exists secrets k0 :
  In k0 required -> configured secrets k0 = false ->
  exists k, first_absent secrets = Some k /\ In k required.
Proof.
  intros Hin Hk. unfold first_absent.
  destruct (List.find _ required) as [k|] eqn:E.
  - exists k. split; [reflexivity |]. apply (List.find_some _ _ E).
  - pose proof (List.find_none _ _ E k0 Hin) as H. cbn beta in H.
    rewrite Hk in H. discriminate.
Qed.

Lemma load_secrets_present secrets st :
  first_absent secrets = None ->
  exists cfg, load_secrets secrets st = Ran (Return cfg) st [].
Proof.
  intros H. apply load_secrets_success.
  pose proof (first_absent_failure secrets) as F. rewrite H in F. exact F.
Qed.

Lemma load_secrets_never_reruns secrets : never_reruns (load_secrets secrets).
Proof.
  intros st. rewrite load_secrets_eq.
  repeat match goal with
         | |- context [match secret ?s ?a ?b with _ => _ end] => destruct (secret s a b)
         | |- context [if is_KeyError ?e then _ else _] => destruct (is_KeyError e)
         end; discriminate.
Qed.

(** ** Re-executions *)

Lemma bind_rerun_inv {A B} (m : script A) (k : A -> script B) st :
  ended (m st) <> Rerun ->
  ended (bind m k st) = Rerun ->
  exists a, ended (k a (final (m st))) = Rerun /\
            final (bind m k st) = final (k a (final (m st))).
Proof.
  unfold bind. destruct (m st) as [[a | e | |] st' t]; run; intros Hm Hr;
    try discriminate; [| exfalso; apply Hm; reflexivity].
  exists a. destruct (k a st') as [o st'' t']. run in Hr. run. auto.
Qed.

Lemma youtube_tab_never_reruns cfg world : never_reruns (youtube_tab cfg world).
Proof.
  intros st. destruct (youtube_tab_cases cfg world st) as (o & t & x & -> & Ho & _).
  exact Ho.
Qed.

Lemma reddit_tab_never_reruns cfg url : never_reruns (reddit_tab cfg url).
Proof. intros st. destruct (reddit_tab_eq cfg url st) as [t ->]. discriminate. Qed.

Lemma sidebar_no_clicks clicked manual st :
  (forall label, clicked label = false) ->
  exists t, sidebar clicked manual st = Ran (Return tt) st t.
Proof.
  intros H. destruct st as [s q]. unfold sidebar, logout_controls, bind. run.
  rewrite !H. run.
  destruct (youtube_credentials s) eqn:Ec, (reddit s) eqn:Er;
    repeat (progress (run; rewrite ?H, ?Ec, ?Er));
    eexists; reflexivity.
Qed.

Lemma auto_sync_rerun t st :
  ended (auto_sync t st) = Rerun <->
  logged_in_somewhere (session st) = true /\ stale t (session st).
Proof.
  unfold auto_sync, logged_in_somewhere, bind. run.
  destruct (truthy (youtube_credentials (session st)) || truthy (reddit (session st))); run.
  - destruct (t - last_sync_time (session st) >=? sync_interval (session st)) eqn:E; run.
    + apply geb_stale in E. intuition.
    + apply geb_fresh in E. unfold fresh, stale in *. intuition (try discriminate; lia).
  - intuition discriminate.
Qed.

(** ** The sample sessions are reachable *)

Lemma logged_in_reachable : reachable sample_secrets logged_in.
Proof.
  unfold logged_in, after.
  apply (reachable_run sample_secrets visited youtube_redirect).
  unfold visited, after.
  apply (reachable_run sample_secrets new_session ∅), reachable_new.
Qed.

Lemma both_logged_in_reachable : reachable sample_secrets both_logged_in.
Proof.
  replace both_logged_in
    with (after (Main sample_secrets (run_at 1700000200 1700000200)) logged_in reddit_redirect)
    by (vm_compute; reflexivity).
  unfold after.
  apply (reachable_run sample_secrets logged_in reddit_redirect), logged_in_reachable.
Qed.

(** * The properties of the specification *)

(** C1.  In every reachable session state, a provider's list of saved items
    is non-empty only if that provider's credential is present, and the same
    holds of the state left by each operation started there: either callback
    handler, the scheduler evaluation, the manual sync, either logout, and a
    whole run of the script. *)
Theorem C1_items_need_credential secrets s :
  reachable secrets s ->
  items_need_credential s /\
  (forall w q, items_need_credential (after (handle_youtube_callback w) s q)) /\
  (forall cfg w q, items_need_credential (after (handle_reddit_callback cfg w) s q)) /\
  (forall w q, items_need_credential (after (sync_content w) s q)) /\
  (forall w q, items_need_credential (after (sync_now w) s q)) /\
  (forall p q, items_need_credential (after (logout p) s q)) /\
  (forall w q, items_need_credential (after (Main secrets w) s q)).
Proof.
  intros Hr. apply reachable_consistent in Hr.
  split; [apply Hr |].
  split; [intros w q; apply (handle_youtube_callback_consistent w (App s q) Hr) |].
  split; [intros cfg w q; apply (handle_reddit_callback_consistent cfg w (App s q) Hr) |].
  split; [intros w q; apply (sync_content_consistent w (App s q) Hr) |].
  split; [intros w q; apply (sync_now_consistent w (App s q) Hr) |].
  split; [intros p q; apply (logout_consistent p (App s q) Hr) |].
  intros w q; apply (Main_consistent secrets w (App s q) Hr).
Qed.

(** The invariant at the session reached by a first visit followed by the
    YouTube redirect, which holds one fetched video. *)
Lemma C1_items_need_credential_witness :
  reachable sample_secrets logged_in /\
  saved_items YouTube logged_in = 1%nat /\
  items_need_credential logged_in.
Proof.
  assert (H : reachable sample_secrets logged_in).
  { unfold logged_in, after.
    apply (reachable_run sample_secrets visited youtube_redirect).
    unfold visited, after.
    apply (reachable_run sample_secrets new_session ∅), reachable_new. }
  split; [exact H | split].
  - vm_compute. reflexivity.
  - exact (proj1 (C1_items_need_credential sample_secrets logged_in H)).
Defined.

(** C2.  Whatever the session state, the logout of a provider leaves that
    provider without credential (and, for YouTube, without API client) and
    with an empty list of saved items, and asks for a re-execution. *)
Theorem C2_logout_clears p s q :
  credential p (after (logout p) s q) = false /\
  live_credential p (after (logout p) s q) = false /\
  saved_items p (after (logout p) s q) = 0%nat /\
  ended (logout p (App s q)) = Rerun.
Proof. destruct p; unfold after, logout, bind; run; repeat split. Qed.

(** C3.  The YouTube redirect, with the matching state, arrives ten seconds
    after a first visit whose scheduler evaluation stamped the time.  The
    handler stores the credential, clears the query parameters and asks for
    a re-execution, but the [sync_content] it calls finds the state fresh:
    no request is sent and the list of videos stays empty.  The Reddit
    redirect at the same moment fares the same. *)
Theorem C3_callback_sync_is_gated :
  let r := Main sample_secrets (run_at 1700000010 1700000010) (App visited youtube_redirect) in
  let r' := Main sample_secrets (run_at 1700000010 1700000010) (App visited reddit_redirect) in
  (last_sync_time visited = 1700000000 /\
   oauth_state visited = Some "xyz") /\
  (ended r = Rerun /\
   youtube_credentials (session (final r)) = Some sample_credentials /\
   live_credential YouTube (session (final r)) = true /\
   query_params (final r) = ∅ /\
   requests YouTube (trace r) = 0%nat /\
   youtube_videos (session (final r)) = []) /\
  (ended r' = Rerun /\
   reddit (session (final r')) = Some sample_reddit /\
   query_params (final r') = ∅ /\
   requests Reddit (trace r') = 0%nat /\
   reddit_posts (session (final r')) = []).
Proof. vm_compute. repeat split. Qed.

(** Both providers are logged in and the timestamp has just been zeroed;
    the YouTube request times out, which is no [HttpError]: the evaluation
    is cut short and Reddit, whose credential is live, is never asked. *)
Lemma C4_forced_sync_counterexample :
  let s := set_last_sync_time 0 both_logged_in in
  reachable sample_secrets both_logged_in /\
  last_sync_time s = 0 /\
  ~ asks_every_live_provider s (sync_content (youtube_unreachable 1700000230) (App s ∅)).
Proof.
  split; [exact both_logged_in_reachable |].
  split; [reflexivity |].
  intros H. specialize (H Reddit eq_refl).
  vm_compute in H. intuition discriminate.
Qed.

(** C4, amended.  In a session whose [last_sync_time] has been zeroed, an
    evaluation at a clock reading of at least [sync_interval] asks YouTube
    whenever the YouTube client is live, and asks Reddit whenever Reddit is
    live and the evaluation is not cut short by an exception escaping the
    YouTube fetcher.  The "Sync Now" control is such an evaluation. *)
Theorem C4_forced_sync_fetches w s q :
  last_sync_time s = 0 ->
  sync_interval s <= time_time w ->
  let r := sync_content w (App s q) in
  (live_credential YouTube s = true -> In (Request YouTube) (trace r)) /\
  (live_credential Reddit s = true ->
   live_credential YouTube s = false \/ escapes (videos_list w) = false ->
   In (Request Reddit) (trace r)) /\
  trace (sync_now w (App s q)) = trace (sync_content w (App (set_last_sync_time 0 s) q)).
Proof.
  intros Hzero Hnow.
  assert (Hstale : stale (time_time w) (session (App s q)))
    by (unfold stale; cbn [session]; lia).
  split; [| split].
  - apply (sync_content_asks_youtube w (App s q) Hstale).
  - intros Hr Hy. apply (sync_content_asks_reddit w (App s q) Hstale Hr).
    destruct Hy as [Hy | Hy]; [left | right; exact Hy].
    cbn [live_credential session] in *. destruct (youtube_api s); [discriminate | reflexivity].
  - unfold sync_now, bind. run.
    destruct (sync_content w _) as [[[] | e | |] st' t']; run;
      rewrite ?app_nil_r; reflexivity.
Qed.

(** With both vendors answering, the forced evaluation asks both. *)
Lemma C4_forced_sync_fetches_witness :
  let s := set_last_sync_time 0 both_logged_in in
  let r := sync_content (vendors_up 1700000230) (App s ∅) in
  In (Request YouTube) (trace r) /\ In (Request Reddit) (trace r).
Proof.
  pose proof (C4_forced_sync_fetches (vendors_up 1700000230)
                (set_last_sync_time 0 both_logged_in) ∅ eq_refl) as H.
  cbv zeta in *.
  assert (Hnow : sync_interval (set_last_sync_time 0 both_logged_in)
                 <= time_time (vendors_up 1700000230)) by (vm_compute; discriminate).
  destruct (H Hnow) as (Hy & Hr & _).
  split; [apply Hy; reflexivity | apply Hr; [reflexivity | right; reflexivity]].
Defined.

(** Two evaluations one second apart, nothing forced in between.  The
    YouTube request of the first times out, so the timestamp is not
    stamped, and the second sends the YouTube request again. *)
Lemma C5_one_fetch_per_interval_counterexample :
  let s := both_logged_in in
  let w1 := youtube_unreachable 1700000300 in
  let w2 := youtube_unreachable 1700000301 in
  let r1 := sync_content w1 (App s ∅) in
  let r2 := sync_content w2 (final r1) in
  reachable sample_secrets s /\
  time_time w2 - time_time w1 < sync_interval s /\
  last_sync_time (session (final r1)) = last_sync_time s /\
  requests YouTube (trace r1 ++ trace r2) = 2%nat /\
  ~ at_most_one_request_each (trace r1 ++ trace r2).
Proof.
  split; [exact both_logged_in_reachable |].
  split; [reflexivity | split; [reflexivity |]].
  split; [vm_compute; reflexivity |].
  intros H. specialize (H YouTube). vm_compute in H. lia.
Qed.

(** C5, amended.  Two scheduler evaluations less than [sync_interval]
    apart, the first of which returns (it is not cut short by an exception
    escaping the YouTube fetcher), with [last_sync_time] and
    [sync_interval] untouched in between, send at most one request to each
    provider. *)
Theorem C5_one_fetch_per_interval w1 w2 s q s2 q2 :
  let r1 := sync_content w1 (App s q) in
  ended r1 = Return tt ->
  last_sync_time s2 = last_sync_time (session (final r1)) ->
  sync_interval s2 = sync_interval s ->
  time_time w2 - time_time w1 < sync_interval s ->
  at_most_one_request_each (trace r1 ++ trace (sync_content w2 (App s2 q2))).
Proof.
  intros r1 Hret Hlast Hint Hclose p. subst r1.
  rewrite requests_app.
  destruct (sync_content_returns w1 (App s q) Hret) as [[_ Ht] | [_ Hstamp]].
  - rewrite Ht. apply (sync_content_requests p w2 (App s2 q2)).
  - rewrite (sync_content_fresh w2 (App s2 q2)).
    + cbn [trace requests List.filter length].
      pose proof (sync_content_requests p w1 (App s q)). lia.
    + unfold fresh. cbn [session]. rewrite Hlast, Hstamp, Hint. exact Hclose.
Qed.

(** A stale evaluation that fetches, followed 30 s later by another. *)
Lemma C5_one_fetch_per_interval_witness :
  let r1 := sync_content (vendors_up 1700000300) (App both_logged_in ∅) in
  requests YouTube (trace r1) = 1%nat /\
  at_most_one_request_each
    (trace r1 ++ trace (sync_content (vendors_up 1700000330) (final r1))).
Proof.
  split; [vm_compute; reflexivity |].
  apply (C5_one_fetch_per_interval (vendors_up 1700000300) (vendors_up 1700000330)
           both_logged_in ∅
           (session (final (sync_content (vendors_up 1700000300) (App both_logged_in ∅))))
           ∅).
  - vm_compute. reflexivity.
  - reflexivity.
  - vm_compute. reflexivity.
  - vm_compute. reflexivity.
Defined.

(** A stale evaluation in which the YouTube answer has an item without
    [snippet]: the fetcher raises [KeyError], which its [except] clause does
    not handle.  Nothing is shown, the list of videos keeps its old
    content, Reddit is not asked and the timestamp does not move. *)
Lemma C7_fetch_errors_counterexample :
  let s := both_logged_in in
  let w := SyncWorld 1700000300 (Executes response_without_snippet) sample_saved in
  let r := sync_content w (App s ∅) in
  reachable sample_secrets s /\
  stale (time_time w) s /\
  liked_videos (videos_list w) = inl (KeyError "snippet") /\
  ended r = Raise (KeyError "snippet") /\
  (forall msg, ~ In (StError msg) (trace r)) /\
  youtube_videos (session (final r)) <> [] /\
  ~ In (Request Reddit) (trace r) /\
  last_sync_time (session (final r)) <> time_time w.
Proof.
  split; [exact both_logged_in_reachable |].
  split; [unfold stale; vm_compute; discriminate |].
  split; [vm_compute; reflexivity |].
  split; [vm_compute; reflexivity |].
  split; [intros msg H; vm_compute in H; intuition discriminate |].
  split; [vm_compute; discriminate |].
  split; [intros H; vm_compute in H; intuition discriminate |].
  vm_compute. discriminate.
Qed.

(** C7, amended.  In a stale scheduler evaluation: if the YouTube request
    fails with an HTTP error, or if Reddit is asked and its listing raises
    any exception, then the error is shown inline, that provider's list is
    reset to empty, the other provider is still asked if its credential is
    live, the timestamp advances to the current time, and the evaluation
    returns. *)
Theorem C7_fetch_errors w s q :
  stale (time_time w) s ->
  let r := sync_content w (App s q) in
  (forall client reason,
     youtube_api s = Some client ->
     videos_list w = ExecuteRaises (HttpError reason) ->
     In (StError (FString "Error fetching YouTube videos: " (HttpError reason) "")) (trace r) /\
     youtube_videos (session (final r)) = [] /\
     (live_credential Reddit s = true -> In (Request Reddit) (trace r)) /\
     last_sync_time (session (final r)) = time_time w /\
     ended r = Return tt) /\
  (forall yielded err,
     In (Request Reddit) (trace r) ->
     saved w = YieldsThenRaises yielded err ->
     In (StError (FString "Error fetching Reddit posts: " err "")) (trace r) /\
     reddit_posts (session (final r)) = [] /\
     (live_credential YouTube s = true -> In (Request YouTube) (trace r)) /\
     last_sync_time (session (final r)) = time_time w /\
     ended r = Return tt).
Proof.
  intros Hs r. split.
  - intros client reason Ha Hw.
    apply (sync_content_youtube_http_error w (App s q) client reason Hs Ha Hw).
  - intros yielded err Hasked Hw.
    apply (sync_content_reddit_error w (App s q) yielded err Hasked Hw).
Qed.

(** Both fetches fail in ways their fetchers handle: both lists are reset
    and the timestamp advances. *)
Lemma C7_fetch_errors_witness :
  let w := SyncWorld 1700000300 (ExecuteRaises (HttpError "quotaExceeded"))
             (YieldsThenRaises [] (OtherException "received 401 HTTP response")) in
  let r := sync_content w (App both_logged_in ∅) in
  (youtube_videos (session (final r)) = [] /\
   reddit_posts (session (final r)) = []) /\
  last_sync_time (session (final r)) = 1700000300.
Proof.
  pose proof (C7_fetch_errors
                (SyncWorld 1700000300 (ExecuteRaises (HttpError "quotaExceeded"))
                   (YieldsThenRaises [] (OtherException "received 401 HTTP response")))
                both_logged_in ∅) as H.
  assert (Hs : stale 1700000300 both_logged_in) by (unfold stale; vm_compute; discriminate).
  destruct (H Hs) as [Hy Hr].
  destruct (Hy _ "quotaExceeded" eq_refl eq_refl) as (_ & Hv & Hasks & Ht & _).
  destruct (Hr [] (OtherException "received 401 HTTP response")
              (Hasks eq_refl) eq_refl) as (_ & Hp & _).
  repeat split; assumption.
Defined.

(** A stale evaluation whose YouTube request times out leaves the
    timestamp where it was. *)
Lemma C10_stamp_without_fetch_counterexample :
  let s := both_logged_in in
  let w := youtube_unreachable 1700000300 in
  let r := sync_content w (App s ∅) in
  reachable sample_secrets s /\
  stale (time_time w) s /\
  last_sync_time (session (final r)) <> time_time w.
Proof.
  split; [exact both_logged_in_reachable |].
  split; [unfold stale; vm_compute; discriminate | vm_compute; discriminate].
Qed.

(** C10, amended.  A scheduler evaluation that finds the state stale and is
    not cut short by an exception escaping the YouTube fetcher sets
    [last_sync_time] to the current time; with no live credential at all it
    does nothing else.  After it, an evaluation less than [sync_interval]
    later does nothing, whatever credentials the session has gained in
    between. *)
Theorem C10_stamp_without_fetch w s q :
  stale (time_time w) s ->
  live_credential YouTube s = false \/ escapes (videos_list w) = false ->
  let r := sync_content w (App s q) in
  last_sync_time (session (final r)) = time_time w /\
  (live_credential YouTube s = false -> live_credential Reddit s = false ->
   r = Ran (Return tt) (App (set_last_sync_time (time_time w) s) q) []) /\
  (forall w' s' q',
     last_sync_time s' = last_sync_time (session (final r)) ->
     sync_interval s' = sync_interval s ->
     time_time w' - time_time w < sync_interval s ->
     sync_content w' (App s' q') = Ran (Return tt) (App s' q') []).
Proof.
  intros Hs Hy r.
  assert (Hy' : youtube_api (session (App s q)) = None \/ escapes (videos_list w) = false).
  { destruct Hy as [Hy | Hy]; [left | right; exact Hy].
    cbn [live_credential session] in *. destruct (youtube_api s); [discriminate | reflexivity]. }
  destruct (sync_content_stale_returns w (App s q) Hs Hy') as [_ Hstamp].
  split; [exact Hstamp | split].
  - intros Hny Hnr. apply (sync_content_no_credential w (App s q) Hs).
    + cbn [live_credential session] in *. destruct (youtube_api s); [discriminate | reflexivity].
    + cbn [live_credential session] in *. destruct (reddit s); [discriminate | reflexivity].
  - intros w' s' q' Hlast Hint Hclose.
    apply sync_content_fresh. unfold fresh. cbn [session].
    subst r. rewrite Hlast, Hstamp, Hint. exact Hclose.
Qed.

(** The first evaluation of a new session stamps the time without a
    request; ten seconds later, logged in to Reddit, the next one is idle. *)
Lemma C10_stamp_without_fetch_witness :
  let r := sync_content (vendors_up 1700000000) (App new_session ∅) in
  last_sync_time (session (final r)) = 1700000000 /\
  trace r = [] /\
  trace (sync_content (vendors_up 1700000010) (App (set_reddit (Some sample_reddit) (session (final r))) ∅)) = [].
Proof.
  pose proof (C10_stamp_without_fetch (vendors_up 1700000000) new_session ∅) as H.
  assert (Hs : stale (time_time (vendors_up 1700000000)) new_session)
    by (unfold stale; vm_compute; discriminate).
  destruct (H Hs (or_introl eq_refl)) as (Hstamp & Hnone & Hnext).
  split; [exact Hstamp | split].
  - rewrite (Hnone eq_refl eq_refl). reflexivity.
  - rewrite (Hnext (vendors_up 1700000010)
               (set_reddit (Some sample_reddit)
                  (session (final (sync_content (vendors_up 1700000000) (App new_session ∅)))))
               ∅ eq_refl eq_refl); [reflexivity | vm_compute; reflexivity].
Defined.

(** A request whose state is not the stored one: the YouTube handler
    returns without showing anything. *)
Lemma C6_failed_callbacks_counterexample :
  let forged : gmap string string := {[ "code" := "4/0AfJohX"; "state" := "forged" ]} in
  let w := youtube_callback (run_at 1700000010 1700000010) in
  let r := handle_youtube_callback w (App visited forged) in
  oauth_state visited = Some "xyz" /\
  forged !! "state" = Some "forged" /\
  ended r = Return tt /\
  ~ shows_error (trace r).
Proof.
  split; [vm_compute; reflexivity |].
  split; [vm_compute; reflexivity |].
  split; [vm_compute; reflexivity |].
  intros [msg H]. vm_compute in H. exact H.
Qed.

(** C6, amended.  On a request that carries a code: if the Reddit token
    exchange fails, the Reddit handler shows "Reddit login failed", changes
    nothing in the session and returns; if the state of the request differs
    from the stored anti-forgery state, the YouTube handler returns at once,
    silently and without touching the session; and if the YouTube token
    exchange fails, the YouTube handler leaves the session as it found it,
    so no credential is created. *)
Theorem C6_failed_callbacks cfg wr wy s q code :
  q !! "code" = Some code ->
  (forall e, authorize wr = Some e ->
     handle_reddit_callback cfg wr (App s q) =
     Ran (Return tt) (App s q) [StError (FString "Reddit login failed: " e "")]) /\
  (forall state expected,
     q !! "state" = Some state -> oauth_state s = Some expected ->
     state <> expected ->
     handle_youtube_callback wy (App s q) = Ran (Return tt) (App s q) []) /\
  (forall e, fetch_token wy = FetchTokenRaises e ->
     final (handle_youtube_callback wy (App s q)) = App s q).
Proof.
  intros Hc. split; [| split].
  - intros e Ha. apply (handle_reddit_callback_refused cfg wr (App s q) code e Hc Ha).
  - intros state expected Hs Ho Hne.
    apply (handle_youtube_callback_mismatch wy (App s q) code state expected Hc Hs Ho Hne).
  - intros e Hf. apply (handle_youtube_callback_refused wy (App s q) e Hf).
Qed.

(** Both token exchanges refuse the code: neither credential appears. *)
Lemma C6_failed_callbacks_witness :
  let wr := RedditCallbackWorld (Some (OtherException "invalid_grant")) (vendors_up 1700000010) in
  let wy := YouTubeCallbackWorld (FetchTokenRaises (OtherException "invalid_grant"))
              (vendors_up 1700000010) in
  reddit (after (handle_reddit_callback sample_config wr) visited youtube_redirect) = None /\
  youtube_credentials (after (handle_youtube_callback wy) visited youtube_redirect) = None.
Proof.
  pose proof (C6_failed_callbacks sample_config
                (RedditCallbackWorld (Some (OtherException "invalid_grant")) (vendors_up 1700000010))
                (YouTubeCallbackWorld (FetchTokenRaises (OtherException "invalid_grant"))
                   (vendors_up 1700000010))
                visited youtube_redirect "4/0AfJohX" eq_refl) as (Hr & _ & Hy).
  unfold after. cbv zeta.
  rewrite (Hr _ eq_refl), (Hy _ eq_refl).
  split; vm_compute; reflexivity.
Defined.

(** With no secrets file at all the four values are absent, yet the first
    read raises [FileNotFoundError], which the [except KeyError] clause
    does not handle: the run shows no error and does not call [st.stop].
    And when only the Reddit client secret is absent, the error shown
    carries the key [client_secret], not the dotted [reddit.client_secret]. *)
Lemma C8_missing_secret_counterexample :
  let r := Main None (run_at 1700000000 1700000000) (App new_session ∅) in
  let r' := Main (Some secrets_without_reddit_client_secret)
              (run_at 1700000000 1700000000) (App new_session ∅) in
  (forall k, In k required -> configured None k = false) /\
  ended r = Raise (FileNotFoundError "No secrets found") /\
  ~ shows_error (trace r) /\
  trace r' =
    [StError (FString "Missing secret: " (KeyError "client_secret")
                ". Please configure secrets.toml with YouTube and Reddit credentials.")] /\
  KeyError "client_secret" <> KeyError "reddit.client_secret".
Proof.
  split; [intros k _; reflexivity |].
  split; [vm_compute; reflexivity |].
  split; [intros [msg H]; vm_compute in H; exact H |].
  split; [vm_compute; reflexivity | discriminate].
Qed.

(** C8, amended.  When the secrets file exists and the sections the script
    reads from it are tables, the absence of any of the four required
    values stops the run at once, whatever the session and the request: the
    session is untouched and the page holds a single element, the error
    "Missing secret: ... Please configure secrets.toml with YouTube and
    Reddit credentials." carrying the [KeyError] of the first absent value
    in reading order.  The key it names is the table name when the whole
    table is absent and the key inside its table otherwise; for the Reddit
    client secret that is [client_secret]. *)
Theorem C8_missing_secret file w st k0 :
  sections_are_tables file ->
  In k0 required ->
  configured (Some file) k0 = false ->
  exists k,
    first_absent (Some file) = Some k /\
    Main (Some file) w st =
    Ran Stop st
      [StError (FString "Missing secret: " (KeyError (absent_key file k))
                  ". Please configure secrets.toml with YouTube and Reddit credentials.")] /\
    (k = ("reddit", "client_secret") -> absent_key file k = "client_secret").
Proof.
  intros Htables Hin Hk0.
  destruct (first_absent_exists (Some file) k0 Hin Hk0) as (k & Hk & Hink).
  exists k. split; [exact Hk | split].
  - pose proof (first_absent_failure (Some file)) as F. rewrite Hk in F.
    destruct F as (e & Hfail & Hread).
    pose proof (secret_absent file k e Hink Htables Hread) as ->.
    unfold Main, bind. rewrite (load_secrets_failure (Some file) st _ Hfail).
    reflexivity.
  - intros ->. unfold absent_key. cbn [fst snd].
    destruct (file !! "reddit") as [entry|] eqn:E; [reflexivity |].
    exfalso. revert Hk.
    unfold first_absent, required, configured, secret. cbn [List.find fst snd].
    rewrite E.
    destruct (file !! "youtube") as [[value | table]|]; cbn [negb];
      try (intros [= H]; discriminate H).
    destruct (table !! "client_secret_json"); cbn [negb]; intros [= H]; discriminate H.
Qed.

(** The configuration without the Reddit client secret. *)
Lemma C8_missing_secret_witness :
  Main (Some secrets_without_reddit_client_secret) (run_at 1700000000 1700000000)
       (App new_session ∅) =
  Ran Stop (App new_session ∅)
    [StError (FString "Missing secret: " (KeyError "client_secret")
                ". Please configure secrets.toml with YouTube and Reddit credentials.")].
Proof.
  destruct (C8_missing_secret secrets_without_reddit_client_secret
              (run_at 1700000000 1700000000) (App new_session ∅)
              ("reddit", "client_secret"))
    as (k & Hk & Hmain & Hname).
  - intros k value Hin H.
    destruct Hin as [<- | [<- | [<- | [<- | []]]]]; vm_compute in H; discriminate H.
  - right; right; left; reflexivity.
  - vm_compute. reflexivity.
  - assert (E : k = ("reddit", "client_secret")).
    { vm_compute in Hk. injection Hk as <-. reflexivity. }
    rewrite Hmain, (Hname E). reflexivity.
Defined.

(** A run with no redirect and no button pressed, started 59 s after the
    last sync and reaching its last statement one second later: it ends by
    asking for a re-execution. *)
Lemma C9_auto_rerun_counterexample :
  let w := run_at 1700000259 1700000260 in
  reachable sample_secrets both_logged_in /\
  without_interaction ∅ w /\
  ended (Main sample_secrets w (App both_logged_in ∅)) = Rerun.
Proof.
  split; [exact both_logged_in_reachable |].
  split; [split; [reflexivity | intros label; reflexivity] |].
  vm_compute. reflexivity.
Qed.

(** C9, amended.  The last statement of the script asks for a re-execution
    exactly when some provider is logged in and, at that moment, the time
    since [last_sync_time] is at least [sync_interval].  A run caused
    neither by a redirect nor by a button asks for a re-execution only in
    that way: if it ends with one, then in the state it leaves some
    provider is logged in and the state is stale at the final clock
    reading. *)
Theorem C9_auto_rerun secrets w s q :
  without_interaction q w ->
  let r := Main secrets w (App s q) in
  (ended r = Rerun ->
   logged_in_somewhere (session (final r)) = true /\
   stale (end_time w) (session (final r))) /\
  (forall t st,
     ended (auto_sync t st) = Rerun <->
     logged_in_somewhere (session st) = true /\ stale t (session st)).
Proof.
  intros [Hcode Hclicks] r. split; [| intros t st; apply auto_sync_rerun].
  subst r. unfold Main. intros Hr.
  apply bind_rerun_inv in Hr as (cfg & Hr & ->); [| apply load_secrets_never_reruns].
  rewrite load_secrets_final in *. cbv beta in *.
  apply bind_rerun_inv in Hr as (? & Hr & ->); [| discriminate].
  cbn [draw emit final] in *.
  apply bind_rerun_inv in Hr as (? & Hr & ->);
    [| rewrite (handle_youtube_callback_no_code _ (App s q) Hcode); discriminate].
  rewrite (handle_youtube_callback_no_code _ (App s q) Hcode) in *. cbn [final] in *.
  apply bind_rerun_inv in Hr as (? & Hr & ->);
    [| rewrite (handle_reddit_callback_no_code cfg _ (App s q) Hcode); discriminate].
  rewrite (handle_reddit_callback_no_code cfg _ (App s q) Hcode) in *. cbn [final] in *.
  apply bind_rerun_inv in Hr as (? & Hr & ->); [| apply sync_content_never_reruns].
  apply bind_rerun_inv in Hr as (? & Hr & ->); [| discriminate].
  cbn [draw emit final] in *.
  apply bind_rerun_inv in Hr as (? & Hr & ->); [| apply youtube_tab_never_reruns].
  apply bind_rerun_inv in Hr as (? & Hr & ->); [| apply reddit_tab_never_reruns].
  match type of Hr with
  | ended (bind _ _ ?st) = _ =>
      destruct (sidebar_no_clicks (clicks w) (manual_sync w) st Hclicks) as [t Hside]
  end.
  apply bind_rerun_inv in Hr as (? & Hr & ->); [| rewrite Hside; discriminate].
  rewrite auto_sync_final. apply auto_sync_rerun, Hr.
Qed.

(** The same run, read through the amended statement. *)
Lemma C9_auto_rerun_witness :
  let w := run_at 1700000259 1700000260 in
  let r := Main sample_secrets w (App both_logged_in ∅) in
  logged_in_somewhere (session (final r)) = true /\
  stale 1700000260 (session (final r)).
Proof.
  assert (Hi : without_interaction ∅ (run_at 1700000259 1700000260))
    by (split; [reflexivity | intros label; reflexivity]).
  destruct (C9_auto_rerun sample_secrets (run_at 1700000259 1700000260)
              both_logged_in ∅ Hi) as [H _].
  apply H. vm_compute. reflexivity.
Defined.

(** * Further properties of the code *)

(** ** Content fetchers *)

Lemma find_absent (key : string) (fields : list (string * json)) :
  (forall v, ~ In (key, v) fields) ->
  List.find (fun kv => String.eqb (fst kv) key) fields = None.
Proof.
  intros H. destruct (List.find _ fields) as [[k v]|] eqn:E; [| reflexivity].
  apply List.find_some in E as [Hin Hk]. cbn [fst] in Hk.
  apply String.eqb_eq in Hk. subst k. destruct (H v Hin).
Qed.

Lemma subscript_not_http v key e :
  subscript v key = inl e -> is_HttpError e = false.
Proof.
  unfold subscript. destruct v; try (intros [= <-]; reflexivity).
  destruct (List.find _ fields); [discriminate | intros [= <-]; reflexivity].
Qed.

Lemma video_of_item_not_http item e :
  video_of_item item = inl e -> is_HttpError e = false.
Proof.
  unfold video_of_item, rbind.
  repeat match goal with
         | |- context [match subscript ?v ?k with _ => _ end] =>
             let E := fresh "E" in
             destruct (subscript v k) eqn:E;
             [intros [= <-]; apply (subscript_not_http _ _ _ E) |]
         end.
  discriminate.
Qed.

Lemma videos_of_items_not_http items e :
  videos_of_items items = inl e -> is_HttpError e = false.
Proof.
  induction items as [| item rest IH]; [discriminate |].
  cbn [videos_of_items]. unfold rbind.
  destruct (video_of_item item) eqn:E; [intros [= <-]; apply (video_of_item_not_http _ _ E) |].
  destruct (videos_of_items rest); [intros [= <-]; apply IH; reflexivity | discriminate].
Qed.

Lemma videos_of_items_well_formed items :
  Forall well_formed items ->
  exists videos,
    videos_of_items items = inr videos /\
    Forall2 (fun item v => video_of_item item = inr v) items videos.
Proof.
  induction 1 as [| item rest [v Hv] _ (videos & Hvs & Hall)].
  - exists []. split; [reflexivity | constructor].
  - exists (v :: videos). cbn [videos_of_items]. rewrite Hv, Hvs.
    split; [reflexivity | constructor; assumption].
Qed.

(** X1.  When every item of the response can be read, the YouTube fetcher
    returns one video per item, in the order of the response, each built
    from its item; it shows no error and leaves the application state as it
    was. *)
Theorem X1_fetch_youtube_keeps_order fields items api st :
  List.find (fun kv => String.eqb (fst kv) "items") fields = Some ("items", JArr items) ->
  Forall well_formed items ->
  exists videos,
    fetch_youtube_saved_videos (Executes (JObj fields)) api st =
    Ran (Return videos) st [Request YouTube] /\
    Forall2 (fun item v => video_of_item item = inr v) items videos /\
    length videos = length items.
Proof.
  intros Hfind Hall.
  destruct (videos_of_items_well_formed items Hall) as (videos & Hvs & H2).
  exists videos. rewrite fetch_youtube_saved_videos_eq.
  unfold liked_videos, dict_get. rewrite Hfind. cbn [rbind snd iterate].
  rewrite Hvs. repeat split; [exact H2 |].
  symmetry. apply (Forall2_length _ _ _ H2).
Qed.

Lemma X1_fetch_youtube_keeps_order_witness :
  fetch_youtube_saved_videos (Executes liked_response)
    (get_youtube_api sample_credentials) (App new_session ∅) =
  Ran (Return [sample_video]) (App new_session ∅) [Request YouTube].
Proof.
  destruct (X1_fetch_youtube_keeps_order
              [("kind", JStr "youtube#videoListResponse");
               ("items",
                JArr [JObj [("id", JStr "dQw4w9WgXcQ");
                            ("snippet",
                             JObj [("title", JStr "A liked video");
                                   ("thumbnails",
                                    JObj [("default",
                                           JObj [("url", JStr "https://i.ytimg.com/vi/dQw4w9WgXcQ/default.jpg")])])])]])]
              _ (get_youtube_api sample_credentials) (App new_session ∅) eq_refl)
    as (videos & Hrun & H2 & _).
  - constructor; [exists sample_video; reflexivity | constructor].
  - unfold liked_response. rewrite Hrun.
    inversion H2 as [| item v rest vs Hv Hrest]; subst.
    inversion Hrest; subst.
    vm_compute in Hv. injection Hv as <-. reflexivity.
Defined.

(** X2.  A response object without the key [items] is read as an empty
    listing: the fetcher returns the empty list and shows no error. *)
Theorem X2_fetch_youtube_without_items fields api st :
  (forall v, ~ In ("items", v) fields) ->
  fetch_youtube_saved_videos (Executes (JObj fields)) api st =
  Ran (Return []) st [Request YouTube].
Proof.
  intros H. rewrite fetch_youtube_saved_videos_eq.
  unfold liked_videos, dict_get. rewrite (find_absent "items" fields H).
  reflexivity.
Qed.

Lemma X2_fetch_youtube_without_items_witness :
  fetch_youtube_saved_videos
    (Executes (JObj [("kind", JStr "youtube#videoListResponse")]))
    (get_youtube_api sample_credentials) (App new_session ∅) =
  Ran (Return []) (App new_session ∅) [Request YouTube].
Proof.
  apply (X2_fetch_youtube_without_items
           [("kind", JStr "youtube#videoListResponse")]).
  intros v [H | []]. discriminate.
Defined.

(** X3.  One item that cannot be read spoils the whole batch: the fetcher
    raises the exception of the first such item, returns none of the videos
    read before it, shows no error, and the exception is never an
    [HttpError], so the fetcher's own [except] clause cannot handle it. *)
Theorem X3_fetch_youtube_all_or_nothing fields good bad rest e api st :
  List.find (fun kv => String.eqb (fst kv) "items") fields
    = Some ("items", JArr (good ++ bad :: rest)) ->
  Forall well_formed good ->
  video_of_item bad = inl e ->
  is_HttpError e = false /\
  fetch_youtube_saved_videos (Executes (JObj fields)) api st =
  Ran (Raise e) st [Request YouTube].
Proof.
  intros Hfind Hgood Hbad.
  pose proof (video_of_item_not_http bad e Hbad) as Hne.
  split; [exact Hne |].
  rewrite fetch_youtube_saved_videos_eq.
  unfold liked_videos, dict_get. rewrite Hfind. cbn [rbind snd iterate].
  assert (Hraise : videos_of_items (good ++ bad :: rest) = inl e).
  { clear Hfind. induction Hgood as [| item items [v Hv] _ IH].
    - cbn [app videos_of_items]. rewrite Hbad. reflexivity.
    - cbn [app videos_of_items]. rewrite Hv. cbn [rbind]. rewrite IH. reflexivity. }
  rewrite Hraise, Hne. reflexivity.
Qed.

Lemma X3_fetch_youtube_all_or_nothing_witness :
  fetch_youtube_saved_videos
    (Executes (JObj [("items",
                      JArr [JObj [("id", JStr "a");
                                  ("snippet",
                                   JObj [("title", JStr "t");
                                         ("thumbnails",
                                          JObj [("default", JObj [("url", JStr "u")])])])];
                            JObj [("id", JStr "b")]])]))
    (get_youtube_api sample_credentials) (App new_session ∅) =
  Ran (Raise (KeyError "snippet")) (App new_session ∅) [Request YouTube].
Proof.
  apply (X3_fetch_youtube_all_or_nothing
           [("items",
             JArr [JObj [("id", JStr "a");
                         ("snippet",
                          JObj [("title", JStr "t");
                                ("thumbnails",
                                 JObj [("default", JObj [("url", JStr "u")])])])];
                   JObj [("id", JStr "b")]])]
           [JObj [("id", JStr "a");
                  ("snippet",
                   JObj [("title", JStr "t");
                         ("thumbnails",
                          JObj [("default", JObj [("url", JStr "u")])])])]]
           (JObj [("id", JStr "b")]) [] (KeyError "snippet")).
  - reflexivity.
  - constructor; [eexists; reflexivity | constructor].
  - reflexivity.
Defined.

(** X4.  Whatever the vendor answers, the YouTube fetcher sends exactly one
    request, leaves the application state as it was, and ends either by
    returning a list or by raising an exception that is not an [HttpError];
    an [HttpError] is always turned into the empty list with one error
    shown. *)
Theorem X4_fetch_youtube_outcomes world api st :
  let r := fetch_youtube_saved_videos world api st in
  final r = st /\
  requests YouTube (trace r) = 1%nat /\
  requests Reddit (trace r) = 0%nat /\
  ((exists videos, ended r = Return videos) \/
   (exists e, ended r = Raise e /\ is_HttpError e = false)) /\
  (forall reason,
     world = ExecuteRaises (HttpError reason) ->
     r = Ran (Return []) st
           [Request YouTube;
            StError (FString "Error fetching YouTube videos: " (HttpError reason) "")]).
Proof.
  cbv zeta. rewrite fetch_youtube_saved_videos_eq.
  split; [| split; [| split; [| split]]].
  - destruct (liked_videos world) as [e|]; [destruct (is_HttpError e) |]; reflexivity.
  - destruct (liked_videos world) as [e|]; [destruct (is_HttpError e) |]; reflexivity.
  - destruct (liked_videos world) as [e|]; [destruct (is_HttpError e) |]; reflexivity.
  - destruct (liked_videos world) as [e|]; [destruct (is_HttpError e) eqn:E |]; cbn [ended];
      eauto.
  - intros reason ->. reflexivity.
Qed.

Lemma posts_of_saved_omap items :
  posts_of_saved items = omap post_of_saved items.
Proof.
  induction items as [| [t p s | b] rest IH]; cbn; [reflexivity | |]; rewrite IH; reflexivity.
Qed.

(** X5.  The Reddit fetcher never raises and never changes the application
    state.  From a listing that runs to its end it returns exactly the
    submissions, in order, skipping the comments: a post is returned if and
    only if the matching submission was listed, and the posts of two
    listings put end to end are the posts of the first followed by the
    posts of the second.  From a listing that raises it returns the empty
    list, whatever had been listed before, and shows the error. *)
Theorem X5_fetch_reddit_outcomes :
  (forall world r st,
     final (fetch_reddit_saved_posts world r st) = st /\
     exists posts, ended (fetch_reddit_saved_posts world r st) = Return posts) /\
  (forall items r st,
     fetch_reddit_saved_posts (Yields items) r st =
     Ran (Return (posts_of_saved items)) st [Request Reddit]) /\
  (forall items title permalink subreddit,
     In (Post title permalink subreddit) (posts_of_saved items) <->
     In (Submission title permalink subreddit) items) /\
  (forall items items',
     posts_of_saved (items ++ items')%list
     = (posts_of_saved items ++ posts_of_saved items')%list) /\
  (forall items, (length (posts_of_saved items) <= length items)%nat) /\
  (forall items e r st,
     fetch_reddit_saved_posts (YieldsThenRaises items e) r st =
     Ran (Return []) st
       [Request Reddit; StError (FString "Error fetching Reddit posts: " e "")]).
Proof.
  split; [| split; [| split; [| split; [| split]]]].
  - intros world r st. rewrite fetch_reddit_saved_posts_eq.
    destruct world; split; cbn [final ended]; eauto.
  - intros. apply fetch_reddit_saved_posts_eq.
  - intros items title permalink subreddit. rewrite posts_of_saved_omap.
    rewrite <- !list_elem_of_In, list_elem_of_omap. split.
    + intros ([t p s | b] & Hin & Heq); cbn in Heq; [| discriminate].
      injection Heq as -> -> ->. exact Hin.
    + intros Hin. exists (Submission title permalink subreddit). split; [exact Hin | reflexivity].
  - intros. rewrite !posts_of_saved_omap. apply omap_app.
  - intros items. induction items as [| [t p s | b] rest IH]; cbn [posts_of_saved length]; lia.
  - intros. apply fetch_reddit_saved_posts_eq.
Qed.

(** ** Callback handlers *)

Lemma sync_content_ends w st :
  ended (sync_content w st) = Return tt \/
  exists e, ended (sync_content w st) = Raise e /\ is_HttpError e = false.
Proof.
  sync_cases w st; run; eauto.
Qed.

(** X6.  A request without [code] is ignored by both handlers, and a
    request without [state] is ignored by the YouTube handler: nothing is
    drawn, nothing is asked of a vendor, the application state is left as
    it was. *)
Theorem X6_callbacks_ignore_plain_requests cfg wy wr st :
  (query_params st !! "code" = None \/ query_params st !! "state" = None ->
   handle_youtube_callback wy st = Ran (Return tt) st []) /\
  (query_params st !! "code" = None ->
   handle_reddit_callback cfg wr st = Ran (Return tt) st []).
Proof.
  split.
  - intros H. unfold handle_youtube_callback, bind. run.
    destruct st as [s q]. cbn [query_params] in H.
    destruct H as [H | H]; cbn [query_params]; rewrite H;
      [reflexivity | destruct (q !! "code"); reflexivity].
  - apply handle_reddit_callback_no_code.
Qed.

(** X7.  A request with a code and the stored state, a pending flow and a
    token exchange that succeeds: the YouTube handler stores the minted
    credential and the client built from it, empties the query parameters
    and then does exactly what [sync_content] does in that state.  It ends
    by asking for a re-execution, unless an exception escapes the sync, and
    on the state it leaves neither handler reacts again. *)
Theorem X7_youtube_login w s q code state flow c :
  q !! "code" = Some code ->
  q !! "state" = Some state ->
  oauth_state s = Some state ->
  oauth_flow s = Some flow ->
  fetch_token w = TokenFetched c ->
  let r := handle_youtube_callback w (App s q) in
  let r0 := sync_content (youtube_callback_sync w) (App (youtube_logged_in c s) ∅) in
  final r = final r0 /\
  trace r = trace r0 /\
  (ended r0 = Return tt -> ended r = Rerun) /\
  (forall e, ended r0 = Raise e -> ended r = Raise e) /\
  youtube_credentials (session (final r)) = Some c /\
  youtube_api (session (final r)) = Some (get_youtube_api c) /\
  query_params (final r) = ∅ /\
  (forall cfg wy wr,
     handle_youtube_callback wy (final r) = Ran (Return tt) (final r) [] /\
     handle_reddit_callback cfg wr (final r) = Ran (Return tt) (final r) []).
Proof.
  intros Hc Hs Ho Hf Ht r r0.
  assert (Hr : r = match r0 with
                   | Ran (Return _) st' t => Ran Rerun st' t
                   | Ran (Raise e) st' t => Ran (Raise e) st' t
                   | Ran Rerun st' t => Ran Rerun st' t
                   | Ran Stop st' t => Ran Stop st' t
                   end).
  { subst r r0. unfold handle_youtube_callback, bind. run.
    rewrite Hc, Hs. run. rewrite Ho. run. rewrite String.eqb_refl. run.
    rewrite Hf. run. rewrite Ht. run.
    unfold youtube_logged_in.
    destruct (sync_content _ _) as [[[] | e | |] st' t]; run;
      rewrite ?app_nil_r; reflexivity. }
  pose proof (sync_content_frame (youtube_callback_sync w) (App (youtube_logged_in c s) ∅))
    as (Hq & Hcred & Hapi & _).
  fold r0 in Hq, Hcred, Hapi. cbn [session query_params] in Hq, Hcred, Hapi.
  assert (Hfinal : final r = final r0) by (rewrite Hr; destruct r0 as [[[] | e | |] st' t]; reflexivity).
  assert (Hqr : query_params (final r) = ∅) by (rewrite Hfinal; exact Hq).
  split; [exact Hfinal |].
  split; [rewrite Hr; destruct r0 as [[[] | e | |] st' t]; reflexivity |].
  split; [rewrite Hr; destruct r0 as [[[] | e | |] st' t]; cbn [ended]; congruence |].
  split; [intros e; rewrite Hr; destruct r0 as [[[] | e' | |] st' t]; cbn [ended]; congruence |].
  split; [rewrite Hfinal, Hcred; reflexivity |].
  split; [rewrite Hfinal, Hapi; reflexivity |].
  split; [exact Hqr |].
  intros cfg wy wr. split.
  - apply handle_youtube_callback_no_code. rewrite Hqr. reflexivity.
  - apply handle_reddit_callback_no_code. rewrite Hqr. reflexivity.
Qed.

Lemma X7_youtube_login_witness :
  let r := handle_youtube_callback (youtube_callback (run_at 1700000100 1700000100))
             (App visited youtube_redirect) in
  ended r = Rerun /\
  youtube_credentials (session (final r)) = Some sample_credentials /\
  query_params (final r) = ∅.
Proof.
  assert (Hflow : oauth_flow visited
                  = Some (Flow "{'installed': {}}" YOUTUBE_SCOPES "http://localhost:8501"))
    by (vm_compute; reflexivity).
  assert (Hstate : oauth_state visited = Some "xyz") by (vm_compute; reflexivity).
  destruct (X7_youtube_login (youtube_callback (run_at 1700000100 1700000100))
              visited youtube_redirect "4/0AfJohX" "xyz" _ sample_credentials
              eq_refl eq_refl Hstate Hflow eq_refl)
    as (_ & _ & Hret & _ & Hcred & _ & Hq & _).
  split; [apply Hret; vm_compute; reflexivity | split; assumption].
Defined.

(** X8.  A request with a code on which the Reddit token exchange
    succeeds, whatever its [state] parameter or the lack of one: the Reddit
    handler stores the authorized client, empties the query parameters and
    runs [sync_content].  When the sync returns, the handler asks for a
    re-execution.  When an exception escapes the sync, the handler's own
    [except] clause catches it: it shows "Reddit login failed", returns
    without a re-execution, and the client stays stored. *)
Theorem X8_reddit_login cfg w s q code :
  q !! "code" = Some code ->
  authorize w = None ->
  let client := PrawReddit (REDDIT_CLIENT_ID cfg) (REDDIT_CLIENT_SECRET cfg)
                  REDDIT_REDIRECT_URI (REDDIT_USER_AGENT cfg) code in
  let r := handle_reddit_callback cfg w (App s q) in
  let r0 := sync_content (reddit_callback_sync w) (App (set_reddit (Some client) s) ∅) in
  final r = final r0 /\
  reddit (session (final r)) = Some client /\
  query_params (final r) = ∅ /\
  (ended r0 = Return tt -> ended r = Rerun /\ trace r = trace r0) /\
  (forall e,
     ended r0 = Raise e ->
     ended r = Return tt /\
     trace r = (trace r0 ++ [StError (FString "Reddit login failed: " e "")])%list).
Proof.
  intros Hc Ha client r r0.
  assert (Hr : r = match r0 with
                   | Ran (Return _) st' t => Ran Rerun st' t
                   | Ran (Raise e) st' t =>
                       Ran (Return tt) st' (t ++ [StError (FString "Reddit login failed: " e "")])
                   | Ran Rerun st' t => Ran Rerun st' t
                   | Ran Stop st' t => Ran Stop st' t
                   end).
  { subst r r0 client. unfold handle_reddit_callback, bind, try_except. run.
    rewrite Hc, Ha. run.
    destruct (sync_content _ _) as [[[] | e | |] st' t]; run;
      rewrite ?app_nil_r; reflexivity. }
  pose proof (sync_content_frame (reddit_callback_sync w) (App (set_reddit (Some client) s) ∅))
    as (Hq & _ & _ & Hred & _).
  fold r0 in Hq, Hred. cbn [session query_params reddit set_reddit] in Hq, Hred.
  assert (Hfinal : final r = final r0) by (rewrite Hr; destruct r0 as [[[] | e | |] st' t]; reflexivity).
  split; [exact Hfinal |].
  split; [rewrite Hfinal; exact Hred |].
  split; [rewrite Hfinal; exact Hq |].
  split.
  - rewrite Hr. destruct r0 as [[[] | e | |] st' t]; cbn [ended trace]; intros H;
      try discriminate; split; reflexivity.
  - intros e. rewrite Hr. destruct r0 as [[[] | e' | |] st' t]; cbn [ended trace]; intros H;
      try discriminate. injection H as ->. split; reflexivity.
Qed.

Lemma X8_reddit_login_witness :
  let w := RedditCallbackWorld None (youtube_unreachable 1700000200) in
  let r := handle_reddit_callback sample_config w (App logged_in reddit_redirect) in
  reddit (session (final r)) = Some sample_reddit /\
  ended r = Return tt /\
  In (StError (FString "Reddit login failed: " (OtherException "timed out") "")) (trace r).
Proof.
  destruct (X8_reddit_login sample_config
              (RedditCallbackWorld None (youtube_unreachable 1700000200))
              logged_in reddit_redirect "code-from-reddit" eq_refl eq_refl)
    as (_ & Hred & _ & _ & Hraise).
  destruct (Hraise (OtherException "timed out")) as [Hend Htrace];
    [vm_compute; reflexivity |].
  split; [exact Hred | split; [exact Hend |]].
  rewrite Htrace. apply in_or_app. right. left. reflexivity.
Defined.

(** X9.  A request with code and state reaching a session that holds no
    pending authorization: reading [st.session_state.oauth_state] raises
    [AttributeError] before any token exchange, and with the configuration
    complete the whole run is cut short there, with only the title drawn
    and the session untouched. *)
Theorem X9_redirect_without_pending_authorization secrets w s q code state :
  first_absent secrets = None ->
  q !! "code" = Some code ->
  q !! "state" = Some state ->
  oauth_state s = None ->
  handle_youtube_callback (youtube_callback w) (App s q) =
  Ran (Raise (AttributeError "oauth_state")) (App s q) [] /\
  Main secrets w (App s q) =
  Ran (Raise (AttributeError "oauth_state")) (App s q)
      [Draw MainArea (StTitle "Saved Content Viewer")].
Proof.
  intros Hsec Hc Hs Ho.
  assert (Hcb : handle_youtube_callback (youtube_callback w) (App s q) =
                Ran (Raise (AttributeError "oauth_state")) (App s q) []).
  { unfold handle_youtube_callback, bind. run. rewrite Hc, Hs. run. rewrite Ho.
    reflexivity. }
  split; [exact Hcb |].
  destruct (load_secrets_present secrets (App s q) Hsec) as [cfg Hcfg].
  unfold Main. unfold bind at 1. rewrite Hcfg.
  unfold bind at 1. run. unfold bind at 1. rewrite Hcb. reflexivity.
Qed.

Lemma X9_redirect_without_pending_authorization_witness :
  Main sample_secrets (run_at 1700000000 1700000000) (App new_session reddit_redirect) =
  Ran (Raise (AttributeError "oauth_state")) (App new_session reddit_redirect)
      [Draw MainArea (StTitle "Saved Content Viewer")].
Proof.
  apply (X9_redirect_without_pending_authorization sample_secrets
           (run_at 1700000000 1700000000) new_session reddit_redirect
           "code-from-reddit" "uniqueKey");
    first [reflexivity | vm_compute; reflexivity].
Defined.

(** X10.  When the YouTube token exchange raises, nothing catches the
    exception: the handler ends by raising it, with nothing drawn, no
    vendor asked, and the application state, query parameters included,
    as it was. *)
Theorem X10_youtube_exchange_raises w s q code state flow e :
  q !! "code" = Some code ->
  q !! "state" = Some state ->
  oauth_state s = Some state ->
  oauth_flow s = Some flow ->
  fetch_token w = FetchTokenRaises e ->
  handle_youtube_callback w (App s q) = Ran (Raise e) (App s q) [].
Proof.
  intros Hc Hs Ho Hf Ht. unfold handle_youtube_callback, bind. run.
  rewrite Hc, Hs. run. rewrite Ho. run. rewrite String.eqb_refl. run.
  rewrite Hf. run. rewrite Ht. reflexivity.
Qed.

Lemma X10_youtube_exchange_raises_witness :
  handle_youtube_callback
    (YouTubeCallbackWorld (FetchTokenRaises (OtherException "invalid_grant"))
       (vendors_up 1700000010))
    (App visited youtube_redirect) =
  Ran (Raise (OtherException "invalid_grant")) (App visited youtube_redirect) [].
Proof.
  apply (X10_youtube_exchange_raises _ visited youtube_redirect "4/0AfJohX" "xyz"
           (Flow "{'installed': {}}" YOUTUBE_SCOPES "http://localhost:8501"));
    first [reflexivity | vm_compute; reflexivity].
Defined.

(** ** Sync scheduler *)

(** X11.  However it ends, [sync_content] leaves the query parameters, both
    credentials, the YouTube client, the pending authorization and the
    interval as they were, and the timestamp is afterwards either what it
    was or the current clock reading. *)
Theorem X11_sync_content_frame w st :
  let r := sync_content w st in
  query_params (final r) = query_params st /\
  youtube_credentials (session (final r)) = youtube_credentials (session st) /\
  youtube_api (session (final r)) = youtube_api (session st) /\
  reddit (session (final r)) = reddit (session st) /\
  reddit_access_token (session (final r)) = reddit_access_token (session st) /\
  oauth_state (session (final r)) = oauth_state (session st) /\
  oauth_flow (session (final r)) = oauth_flow (session st) /\
  sync_interval (session (final r)) = sync_interval (session st) /\
  (last_sync_time (session (final r)) = last_sync_time (session st) \/
   last_sync_time (session (final r)) = time_time w).
Proof.
  sync_cases w st; run; repeat split; auto.
Qed.

(** X12.  [sync_content] asks a vendor only when the state is stale and
    only for a provider whose credential is live, and it shows an error
    only in an evaluation in which it asked. *)
Theorem X12_sync_content_asks_only_live w st :
  let r := sync_content w st in
  (forall p, In (Request p) (trace r) ->
     stale (time_time w) (session st) /\ live_credential p (session st) = true) /\
  (shows_error (trace r) -> exists p, In (Request p) (trace r)).
Proof.
  cbv zeta. split.
  - intros p. sync_cases w st; run; cbn [In]; rewrite ?Hapi, ?Hreddit; run;
      intros H; split; trivial;
      repeat match goal with
             | H : _ \/ _ |- _ => destruct H
             | H : False |- _ => destruct H
             | H : Request _ = Request _ |- _ => injection H as <-
             | H : StError _ = Request _ |- _ => discriminate H
             end; cbn [live_credential]; rewrite ?Hapi, ?Hreddit; reflexivity.
  - unfold shows_error.
    sync_cases w st; run; cbn [In]; intros [msg H];
      repeat match goal with
             | H : _ \/ _ |- _ => destruct H
             | H : False |- _ => destruct H
             | H : Request _ = StError _ |- _ => discriminate H
             end; eauto.
Qed.

(** ** View renderer *)

Lemma draw_videos_trace videos st :
  draw_videos videos st = Ran (Return tt) st (flat_map video_rows videos).
Proof.
  induction videos as [| v rest IH]; [reflexivity |].
  cbn [draw_videos flat_map]. unfold bind; run. rewrite IH. reflexivity.
Qed.

Lemma draw_posts_trace posts st :
  draw_posts posts st = Ran (Return tt) st (flat_map post_rows posts).
Proof.
  induction posts as [| p rest IH]; [reflexivity |].
  cbn [draw_posts flat_map]. unfold bind; run. rewrite IH. reflexivity.
Qed.

(** X13.  While YouTube is logged in, its tab never consults the login
    flow and never changes the application state.  It draws the header,
    then either the "none found" line when the list is empty or, for each
    video in list order, its thumbnail followed by its link, and last the
    time of the last sync. *)
Theorem X13_youtube_tab_logged_in cfg world s q c :
  youtube_credentials s = Some c ->
  youtube_tab cfg world (App s q) =
  Ran (Return tt) (App s q)
    ([Draw Tab1 (StHeader "YouTube Saved Videos")]
     ++ match youtube_videos s with
        | [] => [Draw Tab1 (StWrite "No saved videos found or an error occurred.")]
        | videos => flat_map video_rows videos
        end
     ++ [Draw Tab1 (StWriteLastSynced (last_sync_time s))])%list.
Proof.
  intros Hc. unfold youtube_tab, bind. run. rewrite Hc.
  destruct (youtube_videos s) as [| v rest]; run; [reflexivity |].
  rewrite (draw_videos_trace (v :: rest)). reflexivity.
Qed.

Lemma X13_youtube_tab_logged_in_witness :
  youtube_tab sample_config (FlowRaises (OtherException "unused")) (App both_logged_in ∅) =
  Ran (Return tt) (App both_logged_in ∅)
    [Draw Tab1 (StHeader "YouTube Saved Videos");
     Draw Tab1 (StImage (JStr "https://i.ytimg.com/vi/dQw4w9WgXcQ/default.jpg") 120);
     Draw Tab1 (StMarkdownVideo (JStr "A liked video")
                  (FString "https://www.youtube.com/watch?v=" (JStr "dQw4w9WgXcQ") ""));
     Draw Tab1 (StWriteLastSynced 1700000200)].
Proof.
  rewrite (X13_youtube_tab_logged_in sample_config (FlowRaises (OtherException "unused"))
             both_logged_in ∅ sample_credentials eq_refl).
  reflexivity.
Defined.

(** X14.  While YouTube is logged out, every drawing of its tab starts a
    new login: when the flow hands out a URL and a state, the tab stores
    that state and the flow, replacing whatever pending authorization the
    session held, touches nothing else, and draws the login link; when the
    flow raises, the tab raises the same exception after the header and
    the invitation, and the session is untouched. *)
Theorem X14_youtube_tab_logged_out cfg world s q :
  youtube_credentials s = None ->
  youtube_tab cfg world (App s q) =
  match world with
  | Authorization authorization_url state =>
      Ran (Return tt)
        (App (set_oauth state
                (Flow (YOUTUBE_CLIENT_SECRET_JSON cfg) YOUTUBE_SCOPES "http://localhost:8501")
                s) q)
        [Draw Tab1 (StHeader "YouTube Saved Videos");
         Draw Tab1 (StWrite "Please log in to view your saved YouTube videos.");
         Draw Tab1 (StMarkdown ("[Login to YouTube](" ++ authorization_url ++ ")"))]
  | FlowRaises e =>
      Ran (Raise e) (App s q)
        [Draw Tab1 (StHeader "YouTube Saved Videos");
         Draw Tab1 (StWrite "Please log in to view your saved YouTube videos.")]
  end.
Proof.
  intros Hc. unfold youtube_tab, youtube_login, bind. run. rewrite Hc.
  destruct world; reflexivity.
Qed.

Lemma X14_youtube_tab_logged_out_witness :
  oauth_state
    (after (youtube_tab sample_config (Authorization "https://accounts.google.com/o" "fresh"))
       visited ∅) = Some "fresh".
Proof.
  unfold after.
  rewrite (X14_youtube_tab_logged_out sample_config
             (Authorization "https://accounts.google.com/o" "fresh") visited ∅);
    [reflexivity | vm_compute; reflexivity].
Defined.

(** X15.  The Reddit tab never changes the application state and always
    returns.  Logged out, it draws the header, the invitation and the login
    link; logged in, the header, then the "none found" line or, for each
    post in list order, its title line followed by its link, and last the
    time of the last sync. *)
Theorem X15_reddit_tab cfg auth_url s q :
  reddit_tab cfg auth_url (App s q) =
  Ran (Return tt) (App s q)
    (Draw Tab2 (StHeader "Reddit Saved Posts")
     :: match reddit s with
        | None =>
            [Draw Tab2 (StWrite "Please log in to view your saved Reddit posts.");
             Draw Tab2 (StMarkdown ("[Login to Reddit](" ++ auth_url ++ ")"))]
        | Some _ =>
            (match reddit_posts s with
             | [] => [Draw Tab2 (StWrite "No saved posts found or an error occurred.")]
             | posts => flat_map post_rows posts
             end ++ [Draw Tab2 (StWriteLastSynced (last_sync_time s))])%list
        end).
Proof.
  unfold reddit_tab, reddit_login, bind. run.
  destruct (reddit s); run; [| reflexivity].
  destruct (reddit_posts s) as [| p rest]; run; [reflexivity |].
  rewrite (draw_posts_trace (p :: rest)). reflexivity.
Qed.

(** ** Sidebar controls *)

(** X16.  The logout controls perform at most one logout per run, and only
    of a provider that is logged in: YouTube's if it is logged in and its
    button was pressed, otherwise Reddit's under the same condition,
    otherwise none, in which case the controls return with the session
    unchanged.  A logout ends the run with a re-execution and leaves the
    other provider's credential and items, the timestamp, the interval and
    the pending authorization as they were. *)
Theorem X16_logout_controls clicked s q :
  let r := logout_controls clicked (App s q) in
  match logout_choice clicked s with
  | Some YouTube => ended r = Rerun /\ session (final r) = youtube_logged_out s
  | Some Reddit => ended r = Rerun /\ session (final r) = reddit_logged_out s
  | None => ended r = Return tt /\ session (final r) = s
  end /\
  query_params (final r) = q /\
  (reddit (youtube_logged_out s) = reddit s /\
   reddit_posts (youtube_logged_out s) = reddit_posts s /\
   last_sync_time (youtube_logged_out s) = last_sync_time s /\
   sync_interval (youtube_logged_out s) = sync_interval s /\
   oauth_state (youtube_logged_out s) = oauth_state s) /\
  (youtube_credentials (reddit_logged_out s) = youtube_credentials s /\
   youtube_api (reddit_logged_out s) = youtube_api s /\
   youtube_videos (reddit_logged_out s) = youtube_videos s /\
   last_sync_time (reddit_logged_out s) = last_sync_time s /\
   sync_interval (reddit_logged_out s) = sync_interval s /\
   oauth_state (reddit_logged_out s) = oauth_state s).
Proof.
  cbv zeta. split; [| split; [| split; repeat split]].
  - unfold logout_controls, logout_choice, logout, bind, button; run.
    destruct (youtube_credentials s) as [c|] eqn:Ec;
      destruct (reddit s) as [rd|] eqn:Er; run; rewrite ?Ec, ?Er; run;
      destruct (clicked "Logout YouTube"); run; rewrite ?Ec, ?Er; run;
      destruct (clicked "Logout Reddit"); run; rewrite ?Ec, ?Er; run;
      destruct s; split; reflexivity.
  - unfold logout_controls, logout, bind, button; run.
    destruct (youtube_credentials s) as [c|] eqn:Ec;
      destruct (reddit s) as [rd|] eqn:Er; run; rewrite ?Ec, ?Er; run;
      destruct (clicked "Logout YouTube"); run; rewrite ?Ec, ?Er; run;
      destruct (clicked "Logout Reddit"); run; rewrite ?Ec, ?Er; run;
      reflexivity.
Qed.

Lemma sidebar_sync_now clicked manual s q :
  clicked "Sync Now" = true ->
  sidebar clicked manual (App s q) =
  match sync_content manual (App (set_last_sync_time 0 s) q) with
  | Ran (Return _) st' t =>
      Ran Rerun st'
        ([Draw Sidebar (StHeader "Controls"); Draw Sidebar (StButton "Sync Now")] ++ t)
  | Ran (Raise e) st' t =>
      Ran (Raise e) st'
        ([Draw Sidebar (StHeader "Controls"); Draw Sidebar (StButton "Sync Now")] ++ t)
  | Ran Rerun st' t => Ran Rerun st' t
  | Ran Stop st' t => Ran Stop st' t
  end.
Proof.
  intros Hclick. unfold sidebar, sync_now, bind, button. run. rewrite Hclick. run.
  pose proof (sync_content_ends manual (App (set_last_sync_time 0 s) q)) as Hends.
  destruct (sync_content _ _) as [[[] | e | |] st' t]; run;
    rewrite ?app_nil_r; try reflexivity;
    destruct Hends as [H | (e & H & _)]; discriminate.
Qed.

(** X17.  When "Sync Now" is pressed the sidebar handles nothing else in
    that run: after the header and the button it zeroes the timestamp and
    does exactly what [sync_content] does in that state, then asks for a
    re-execution (or lets the escaping exception through); the logout
    controls are neither drawn nor consulted. *)
Theorem X17_sync_now_ends_the_run clicked manual s q :
  clicked "Sync Now" = true ->
  let r := sidebar clicked manual (App s q) in
  let r0 := sync_content manual (App (set_last_sync_time 0 s) q) in
  final r = final r0 /\
  trace r = ([Draw Sidebar (StHeader "Controls"); Draw Sidebar (StButton "Sync Now")]
             ++ trace r0)%list /\
  (ended r0 = Return tt -> ended r = Rerun) /\
  (forall e, ended r0 = Raise e -> ended r = Raise e) /\
  ended r <> Return tt.
Proof.
  intros Hclick r r0.
  assert (Hr : r = match r0 with
                   | Ran (Return _) st' t =>
                       Ran Rerun st'
                         ([Draw Sidebar (StHeader "Controls");
                           Draw Sidebar (StButton "Sync Now")] ++ t)
                   | Ran (Raise e) st' t =>
                       Ran (Raise e) st'
                         ([Draw Sidebar (StHeader "Controls");
                           Draw Sidebar (StButton "Sync Now")] ++ t)
                   | Ran Rerun st' t => Ran Rerun st' t
                   | Ran Stop st' t => Ran Stop st' t
                   end)
    by (subst r r0; apply sidebar_sync_now, Hclick).
  pose proof (sync_content_ends manual (App (set_last_sync_time 0 s) q)) as Hends.
  fold r0 in Hends. rewrite Hr.
  destruct r0 as [[[] | e | |] st' t]; cbn [ended final trace] in *;
    try (destruct Hends as [H | (e' & H & _)]; discriminate);
    repeat split; try congruence; discriminate.
Qed.

Lemma X17_sync_now_ends_the_run_witness :
  let clicked := fun label => String.eqb label "Sync Now" || String.eqb label "Logout Reddit" in
  let r := sidebar clicked (vendors_up 1700000230) (App both_logged_in ∅) in
  ended r = Rerun /\
  reddit (session (final r)) = Some sample_reddit /\
  last_sync_time (session (final r)) = 1700000230.
Proof.
  destruct (X17_sync_now_ends_the_run
              (fun label => String.eqb label "Sync Now" || String.eqb label "Logout Reddit")
              (vendors_up 1700000230) both_logged_in ∅ eq_refl)
    as (Hfinal & _ & Hret & _).
  cbv zeta. rewrite Hfinal.
  split; [apply Hret; vm_compute; reflexivity | split; vm_compute; reflexivity].
Defined.

(** ** What every run keeps *)

Lemma preserves_try_except {A} I (m : script A) handles handler :
  preserves I m -> (forall e, preserves I (handler e)) ->
  preserves I (try_except m handles handler).
Proof.
  intros Hm Hh st HI. unfold try_except.
  specialize (Hm st HI).
  destruct (m st) as [[a | e | |] st' t]; run; auto.
  destruct (handles e); run; auto.
  specialize (Hh e st' Hm).
  destruct (handler e st') as [o st'' t']. exact Hh.
Qed.

Lemma fetch_youtube_saved_videos_final world api st :
  final (fetch_youtube_saved_videos world api st) = st.
Proof.
  rewrite fetch_youtube_saved_videos_eq.
  destruct (liked_videos world) as [e|]; [destruct (is_HttpError e) |]; reflexivity.
Qed.

Lemma fetch_reddit_saved_posts_final world r st :
  final (fetch_reddit_saved_posts world r st) = st.
Proof. rewrite fetch_reddit_saved_posts_eq. destruct world; reflexivity. Qed.

Section Stable.

Variable I : session_state -> Prop.
Hypothesis HI : stable I.

Lemma sync_content_stable w : preserves I (sync_content w).
Proof.
  destruct HI as (Hv & Hp & Ht & _).
  unfold sync_content.
  apply preserves_bind; [apply preserves_pure; reflexivity | intros s].
  destruct (_ >=? _); [| apply preserves_pure; reflexivity].
  apply preserves_bind; [| intros _].
  { destruct (youtube_api s); [| apply preserves_pure; reflexivity].
    apply preserves_bind; [apply preserves_pure, fetch_youtube_saved_videos_final |].
    intros videos. apply preserves_update. intros s'. apply Hv. }
  apply preserves_bind; [apply preserves_pure; reflexivity | intros s'].
  apply preserves_bind; [| intros _; apply preserves_update; intros s''; apply Ht].
  destruct (reddit s'); [| apply preserves_pure; reflexivity].
  apply preserves_bind; [apply preserves_pure, fetch_reddit_saved_posts_final |].
  intros posts. apply preserves_update. intros s''. apply Hp.
Qed.

Lemma handle_youtube_callback_stable w : preserves I (handle_youtube_callback w).
Proof.
  destruct HI as (_ & _ & _ & _ & Hlogin & _).
  intros [s q] H. unfold handle_youtube_callback, bind. run.
  destruct (q !! "code") as [code|]; [| exact H].
  destruct (q !! "state") as [state|]; [| exact H].
  run.
  destruct (oauth_state s) as [expected|]; run; [| exact H].
  destruct (String.eqb state expected); run; [| exact H].
  destruct (oauth_flow s) as [flow|]; run; [| exact H].
  destruct (fetch_token w) as [c | e]; run; [| exact H].
  set (st' := App _ _).
  assert (Hst' : I (session st')) by (apply (Hlogin c s), H).
  pose proof (sync_content_stable (youtube_callback_sync w) st' Hst') as Hsync.
  revert Hsync.
  destruct (sync_content (youtube_callback_sync w) st') as [[[] | e | |] st'' t''];
    run; trivial.
Qed.

Lemma handle_reddit_callback_stable cfg w : preserves I (handle_reddit_callback cfg w).
Proof.
  destruct HI as (_ & _ & _ & _ & _ & Hlogin & _).
  intros [s q] H. unfold handle_reddit_callback, bind. run.
  destruct (q !! "code") as [code|]; [| exact H].
  unfold try_except. run.
  destruct (authorize w) as [e|]; run; [exact H |].
  set (st' := App _ _).
  assert (Hst' : I (session st')) by (apply Hlogin, H).
  pose proof (sync_content_stable (reddit_callback_sync w) st' Hst') as Hsync.
  revert Hsync.
  destruct (sync_content (reddit_callback_sync w) st') as [[[] | e | |] st'' t''];
    run; trivial.
Qed.

Lemma youtube_tab_stable cfg world : preserves I (youtube_tab cfg world).
Proof.
  destruct HI as (_ & _ & _ & Ho & _).
  intros st H. destruct (youtube_tab_cases cfg world st) as (o & t & x & -> & _ & Hx).
  cbn [final session]. destruct Hx as [-> | (state & flow & ->)]; [exact H |].
  apply Ho, H.
Qed.

Lemma logout_controls_stable clicked : preserves I (logout_controls clicked).
Proof.
  destruct HI as (_ & _ & _ & _ & _ & _ & Hy & Hr).
  intros [s q] H. unfold logout_controls, bind, button; run.
  destruct (youtube_credentials s) as [c|] eqn:Ec;
    destruct (reddit s) as [r|] eqn:Er; run; rewrite ?Ec, ?Er; run;
    repeat (match goal with
            | |- context [clicked ?l] => destruct (clicked l)
            end; run; rewrite ?Ec, ?Er; run);
    first [ exact H | apply (Hy s H) | apply (Hr s H) ].
Qed.

Lemma sidebar_stable clicked manual : preserves I (sidebar clicked manual).
Proof.
  pose proof HI as (_ & _ & Ht & _).
  unfold sidebar.
  apply preserves_bind; [apply preserves_pure; reflexivity | intros _].
  apply preserves_bind; [apply preserves_pure; reflexivity | intros pressed].
  apply preserves_bind; [| intros _; apply logout_controls_stable].
  destruct pressed; [| apply preserves_pure; reflexivity].
  unfold sync_now.
  apply preserves_bind; [apply preserves_update; intros s; apply Ht | intros _].
  apply preserves_bind; [apply sync_content_stable | intros _].
  apply preserves_pure. reflexivity.
Qed.

Lemma Main_stable secrets w : preserves I (Main secrets w).
Proof.
  unfold Main.
  apply preserves_bind; [apply preserves_pure, load_secrets_final | intros cfg].
  apply preserves_bind; [apply preserves_pure; reflexivity | intros _].
  apply preserves_bind; [apply handle_youtube_callback_stable | intros _].
  apply preserves_bind; [apply handle_reddit_callback_stable | intros _].
  apply preserves_bind; [apply sync_content_stable | intros _].
  apply preserves_bind; [apply preserves_pure; reflexivity | intros _].
  apply preserves_bind; [apply youtube_tab_stable | intros _].
  apply preserves_bind; [intros st H; destruct (reddit_tab_eq cfg (reddit_auth_url w) st) as [t ->]; exact H | intros _].
  apply preserves_bind; [apply sidebar_stable | intros _].
  apply preserves_pure, auto_sync_final.
Qed.

Lemma reachable_stable secrets s : I new_session -> reachable secrets s -> I s.
Proof.
  intros Hnew. induction 1 as [| s q w _ IH]; [exact Hnew |].
  apply (Main_stable secrets w (App s q)), IH.
Qed.

End Stable.

Lemma settings_untouched_stable : stable settings_untouched.
Proof. repeat split; intros; destruct H; assumption. Qed.

Lemma client_matches_credential_stable : stable client_matches_credential.
Proof.
  unfold stable, client_matches_credential.
  repeat split; intros; try (destruct H as [H1 H2]; cbn; assumption); reflexivity.
Qed.

(** X18.  In every reachable session state the sync interval is 60 seconds
    and [reddit_access_token] is [None]: no statement of the script ever
    assigns them after the initialisation, whatever is requested, clicked
    or answered. *)
Theorem X18_settings_untouched secrets s :
  reachable secrets s ->
  sync_interval s = 60 /\ reddit_access_token s = None.
Proof.
  apply (reachable_stable settings_untouched settings_untouched_stable).
  split; reflexivity.
Qed.

Lemma X18_settings_untouched_witness :
  sync_interval both_logged_in = 60 /\ reddit_access_token both_logged_in = None.
Proof.
  apply (X18_settings_untouched sample_secrets both_logged_in both_logged_in_reachable).
Defined.

(** X19.  In every reachable session state the YouTube API client is
    present exactly when the YouTube credential is, and is the client built
    from that very credential; and the pending flow object is stored
    exactly when the pending anti-forgery state is, so that a request
    accepted by the state check never fails for want of the flow. *)
Theorem X19_client_matches_credential secrets s :
  reachable secrets s ->
  youtube_api s = option_map get_youtube_api (youtube_credentials s) /\
  truthy (oauth_flow s) = truthy (oauth_state s).
Proof.
  apply (reachable_stable client_matches_credential client_matches_credential_stable).
  split; reflexivity.
Qed.

Lemma X19_client_matches_credential_witness :
  youtube_api both_logged_in
  = option_map get_youtube_api (youtube_credentials both_logged_in) /\
  truthy (oauth_flow both_logged_in) = truthy (oauth_state both_logged_in).
Proof.
  apply (X19_client_matches_credential sample_secrets both_logged_in both_logged_in_reachable).
Defined.

(** ** Whole runs *)








Lemma bind_returned {A B} (m : script A) (k : A -> script B) st a :
  m st = Ran (Return a) st [] -> bind m k st = k a st.
Proof. intros H. unfold bind. rewrite H. destruct (k a st). reflexivity. Qed.

Lemma bind_draw {B} c w (k : unit -> script B) st :
  bind (draw c w) k st =
  match k tt st with
  | Ran o st' t => Ran o st' (Draw c w :: t)
  end.
Proof. reflexivity. Qed.



Lemma requests_video_rows p videos : requests p (flat_map video_rows videos) = 0%nat.
Proof. induction videos as [| v rest IH]; [reflexivity | exact IH]. Qed.

Lemma requests_post_rows p posts : requests p (flat_map post_rows posts) = 0%nat.
Proof. induction posts as [| x rest IH]; [reflexivity | exact IH]. Qed.

Lemma youtube_tab_no_request p cfg world st :
  requests p (trace (youtube_tab cfg world st)) = 0%nat.
Proof.
  destruct st as [s q]. unfold youtube_tab, youtube_login, bind. run.
  destruct (youtube_credentials s); run.
  - destruct (youtube_videos s) as [| v rest]; run; [reflexivity |].
    rewrite (draw_videos_trace (v :: rest)). run.
    unfold requests. cbn [List.filter is_request].
    rewrite List.filter_app. cbn [List.filter is_request]. rewrite app_nil_r.
    apply (requests_video_rows p rest).
  - destruct world; reflexivity.
Qed.

Lemma reddit_tab_no_request p cfg url st :
  requests p (trace (reddit_tab cfg url st)) = 0%nat.
Proof.
  destruct st as [s q]. unfold reddit_tab, reddit_login, bind. run.
  destruct (reddit s); run; [| reflexivity].
  destruct (reddit_posts s) as [| x rest]; run; [reflexivity |].
  rewrite (draw_posts_trace (x :: rest)). run.
  unfold requests. cbn [List.filter is_request].
  rewrite List.filter_app. cbn [List.filter is_request]. rewrite app_nil_r.
  apply (requests_post_rows p rest).
Qed.

Lemma quiet_bind {A B} p (m : script A) (k : A -> script B) :
  quiet p m -> (forall a, quiet p (k a)) -> quiet p (bind m k).
Proof.
  intros Hm Hk st Hst. unfold bind.
  destruct (Hm st Hst) as [Hreq Hlive].
  destruct (m st) as [[a | e | |] st' t]; cbn [trace final session] in *; auto.
  destruct (Hk a st' Hlive) as [Hreq' Hlive'].
  destruct (k a st') as [o st'' t']; cbn [trace final session] in *.
  split; [rewrite requests_app; lia | exact Hlive'].
Qed.

Lemma quiet_pure {A} p (m : script A) :
  (forall st, final (m st) = st) ->
  (forall st, requests p (trace (m st)) = 0%nat) ->
  quiet p m.
Proof. intros Hf Ht st Hst. rewrite Hf. auto. Qed.

Lemma sync_content_quiet p w : quiet p (sync_content w).
Proof.
  intros st. destruct p; cbn [live_credential];
    sync_cases w st; run; intros; try discriminate;
    split; rewrite ?Hapi, ?Hreddit; first [reflexivity | assumption].
Qed.

Lemma sidebar_quiet p clicked manual : quiet p (sidebar clicked manual).
Proof.
  unfold sidebar.
  apply quiet_bind; [apply quiet_pure; reflexivity | intros _].
  apply quiet_bind; [apply quiet_pure; [reflexivity | intros; destruct p; reflexivity] | intros pressed].
  apply quiet_bind; [| intros _].
  - destruct pressed; [| apply quiet_pure; reflexivity].
    unfold sync_now.
    apply quiet_bind; [intros st Hst; split; [reflexivity | destruct p; exact Hst] | intros _].
    apply quiet_bind; [apply sync_content_quiet | intros _].
    apply quiet_pure; reflexivity.
  - intros [s q] Hst. unfold logout_controls, logout, bind, button; run.
    destruct (youtube_credentials s) as [c|] eqn:Ec;
      destruct (reddit s) as [rd|] eqn:Er; run; rewrite ?Ec, ?Er; run;
      destruct (clicked "Logout YouTube"); run; rewrite ?Ec, ?Er; run;
      destruct (clicked "Logout Reddit"); run; rewrite ?Ec, ?Er; run;
      destruct p; cbn [live_credential session] in *; run;
      rewrite ?Er in Hst; cbn [truthy] in Hst; try discriminate Hst;
      rewrite ?Er; split; first [reflexivity | assumption].
Qed.

(** X21.  Without a live credential for a provider and without a redirect
    in the request, a run sends no request to that provider, whatever is
    clicked and however the run ends, and the provider is still without
    live credential afterwards. *)
Theorem X21_no_request_without_credential secrets w s q p :
  q !! "code" = None ->
  live_credential p s = false ->
  requests p (trace (Main secrets w (App s q))) = 0%nat /\
  live_credential p (session (final (Main secrets w (App s q)))) = false.
Proof.
  intros Hcode Hlive.
  assert (Hrest : forall cfg, quiet p
            (sync_content (scheduled_sync w) ;;
             draw MainArea (StTabs ["YouTube"; "Reddit"]) ;;
             youtube_tab cfg (login_flow w) ;;
             reddit_tab cfg (reddit_auth_url w) ;;
             sidebar (clicks w) (manual_sync w) ;;
             auto_sync (end_time w))).
  { intros cfg.
    apply quiet_bind; [apply sync_content_quiet | intros _].
    apply quiet_bind; [apply quiet_pure; reflexivity | intros _].
    apply quiet_bind; [| intros _].
    { intros st Hst. split; [apply youtube_tab_no_request |].
      destruct (youtube_tab_cases cfg (login_flow w) st) as (o & t & x & -> & _ & Hx).
      cbn [final session]. destruct Hx as [-> | (state & flow & ->)];
        destruct p; exact Hst. }
    apply quiet_bind; [| intros _].
    { intros st Hst. split; [apply reddit_tab_no_request |].
      destruct (reddit_tab_eq cfg (reddit_auth_url w) st) as [t ->]. exact Hst. }
    apply quiet_bind; [apply sidebar_quiet | intros _].
    intros st Hst. rewrite auto_sync_final. split; [| exact Hst].
    unfold auto_sync, bind. run.
    destruct (truthy _ || truthy _); run; [| reflexivity].
    destruct (_ >=? _); reflexivity. }
  destruct (read_failure secrets) as [e|] eqn:Hk.
  { unfold Main, bind. rewrite (load_secrets_failure secrets (App s q) e Hk).
    destruct (is_KeyError e); (split; [destruct p; reflexivity | exact Hlive]). }
  destruct (load_secrets_success secrets (App s q) Hk) as [cfg Hcfg].
  assert (Hmain : Main secrets w (App s q) =
                  match (sync_content (scheduled_sync w) ;;
                         draw MainArea (StTabs ["YouTube"; "Reddit"]) ;;
                         youtube_tab cfg (login_flow w) ;;
                         reddit_tab cfg (reddit_auth_url w) ;;
                         sidebar (clicks w) (manual_sync w) ;;
                         auto_sync (end_time w)) (App s q) with
                  | Ran o st' t =>
                      Ran o st' (Draw MainArea (StTitle "Saved Content Viewer") :: t)
                  end).
  { unfold Main. rewrite (bind_returned _ _ (App s q) cfg Hcfg). rewrite bind_draw.
    rewrite (bind_returned _ _ (App s q) tt
               (handle_youtube_callback_no_code _ (App s q) Hcode)).
    rewrite (bind_returned _ _ (App s q) tt
               (handle_reddit_callback_no_code _ _ (App s q) Hcode)).
    reflexivity. }
  rewrite Hmain. destruct (Hrest cfg (App s q) Hlive) as [Hreq Hl]. revert Hreq Hl.
  match goal with
  | |- context [match ?x with Ran _ _ _ => _ end] => destruct x as [o st' t]
  end.
  cbn [trace final]. intros Hreq Hl. split; [| exact Hl].
  destruct p; exact Hreq.
Qed.

Lemma X21_no_request_without_credential_witness :
  let w := {| youtube_callback := youtube_callback (run_at 1700000300 1700000300);
              reddit_callback := reddit_callback (run_at 1700000300 1700000300);
              scheduled_sync := vendors_up 1700000300;
              login_flow := login_flow (run_at 1700000300 1700000300);
              reddit_auth_url := reddit_auth_url (run_at 1700000300 1700000300);
              clicks := fun label => String.eqb label "Sync Now";
              manual_sync := vendors_up 1700000300;
              end_time := 1700000300 |} in
  requests Reddit (trace (Main sample_secrets w (App logged_in ∅))) = 0%nat /\
  requests YouTube (trace (Main sample_secrets w (App logged_in ∅))) = 2%nat.
Proof.
  split; [| vm_compute; reflexivity].
  apply (X21_no_request_without_credential sample_secrets _ logged_in ∅ Reddit);
    [reflexivity | vm_compute; reflexivity].
Defined.

Lemma requests_positive p t : In (Request p) t -> (1 <= requests p t)%nat.
Proof.
  unfold requests. induction t as [| ev rest IH]; [intros [] |].
  intros [-> | H]; cbn [List.filter].
  - destruct p; cbn [is_request length]; lia.
  - destruct (is_request p ev); cbn [length]; [pose proof (IH H); lia | exact (IH H)].
Qed.

Lemma sync_content_one_request w st :
  stale (time_time w) (session st) ->
  live_credential YouTube (session st) = true ->
  requests YouTube (trace (sync_content w st)) = 1%nat.
Proof.
  intros Hs Hl.
  pose proof (requests_positive _ _ (sync_content_asks_youtube w st Hs Hl)).
  pose proof (sync_content_requests YouTube w st). lia.
Qed.

Lemma bind_split {A B} (m : script A) (k : A -> script B) st a :
  ended (m st) = Return a ->
  bind m k st =
  match k a (final (m st)) with
  | Ran o st' t => Ran o st' (trace (m st) ++ t)
  end.
Proof. intros H. unfold bind. destruct (m st) as [o st' t]. cbn in H. subst o. reflexivity. Qed.

Lemma youtube_tab_logged_in_returns cfg world st c :
  youtube_credentials (session st) = Some c ->
  ended (youtube_tab cfg world st) = Return tt /\ final (youtube_tab cfg world st) = st.
Proof.
  destruct st as [s q]. cbn [session]. intros Hc. unfold youtube_tab, bind. run. rewrite Hc.
  destruct (youtube_videos s) as [| v rest]; run; [split; reflexivity |].
  rewrite (draw_videos_trace (v :: rest)). split; reflexivity.
Qed.

(** X22.  "Sync Now" pressed on a page that was stale anyway fetches
    twice in the same run: the scheduler evaluation at the top of the
    script asks YouTube, and the forced evaluation of the button asks it
    again.  (YouTube logged in, no redirect, configuration complete, the
    first evaluation not cut short, the clock reading at least the
    interval.) *)
Theorem X22_sync_now_fetches_twice secrets w s q c api :
  first_absent secrets = None ->
  q !! "code" = None ->
  youtube_credentials s = Some c ->
  youtube_api s = Some api ->
  stale (time_time (scheduled_sync w)) s ->
  escapes (videos_list (scheduled_sync w)) = false ->
  clicks w "Sync Now" = true ->
  sync_interval s <= time_time (manual_sync w) ->
  requests YouTube (trace (Main secrets w (App s q))) = 2%nat /\
  ended (Main secrets w (App s q)) <> Return tt.
Proof.
  intros Hk Hcode Hc Hapi Hstale Hesc Hclick Hnow.
  destruct (load_secrets_present secrets (App s q) Hk) as [cfg Hcfg].
  pose proof (sync_content_stale_returns (scheduled_sync w) (App s q) Hstale (or_intror Hesc))
    as [Hret1 _].
  pose proof (sync_content_frame (scheduled_sync w) (App s q)) as (_ & Hc1 & Ha1 & _ & Hi1 & _).
  pose proof (sync_content_one_request (scheduled_sync w) (App s q) Hstale) as Hone.
  cbn [session live_credential] in Hc1, Ha1, Hi1, Hone. rewrite Hapi in Hone, Ha1.
  specialize (Hone eq_refl). rewrite Hc in Hc1.
  set (r1 := sync_content (scheduled_sync w) (App s q)) in *.
  destruct (youtube_tab_logged_in_returns cfg (login_flow w) (final r1) c Hc1) as [Hty Htyf].
  destruct (reddit_tab_eq cfg (reddit_auth_url w) (final r1)) as [tr Htr].
  assert (Hmain : Main secrets w (App s q) =
                  match sidebar (clicks w) (manual_sync w) (final r1) with
                  | Ran o st' t =>
                      Ran o st'
                        (Draw MainArea (StTitle "Saved Content Viewer")
                         :: trace r1
                         ++ Draw MainArea (StTabs ["YouTube"; "Reddit"])
                         :: trace (youtube_tab cfg (login_flow w) (final r1))
                         ++ tr ++ t)
                  end).
  { unfold Main. rewrite (bind_returned _ _ (App s q) cfg Hcfg). rewrite bind_draw.
    rewrite (bind_returned _ _ (App s q) tt
               (handle_youtube_callback_no_code _ (App s q) Hcode)).
    rewrite (bind_returned _ _ (App s q) tt
               (handle_reddit_callback_no_code _ _ (App s q) Hcode)).
    rewrite (bind_split _ _ (App s q) tt Hret1). fold r1.
    rewrite bind_draw.
    rewrite (bind_split _ _ (final r1) tt Hty). rewrite Htyf.
    rewrite (bind_split _ _ (final r1) tt) by (rewrite Htr; reflexivity).
    rewrite Htr. cbn [final trace].
    pose proof (sidebar_sync_now (clicks w) (manual_sync w)
                  (session (final r1)) (query_params (final r1)) Hclick) as Hside.
    replace (App (session (final r1)) (query_params (final r1))) with (final r1) in Hside
      by (destruct (final r1); reflexivity).
    unfold bind at 1. rewrite Hside.
    destruct (sync_content (manual_sync w) _) as [[[] | e | |] st' t]; reflexivity. }
  pose proof (sidebar_sync_now (clicks w) (manual_sync w)
                (session (final r1)) (query_params (final r1)) Hclick) as Hside.
  replace (App (session (final r1)) (query_params (final r1))) with (final r1) in Hside
    by (destruct (final r1); reflexivity).
  assert (Hstale2 : stale (time_time (manual_sync w))
                      (session (App (set_last_sync_time 0 (session (final r1)))
                                    (query_params (final r1))))).
  { unfold stale. cbn [session last_sync_time sync_interval set_last_sync_time].
    rewrite Hi1. lia. }
  pose proof (sync_content_one_request (manual_sync w) _ Hstale2) as Htwo.
  cbn [session live_credential youtube_api set_last_sync_time] in Htwo.
  rewrite Ha1 in Htwo. specialize (Htwo eq_refl).
  pose proof (sync_content_ends (manual_sync w)
                (App (set_last_sync_time 0 (session (final r1))) (query_params (final r1))))
    as Hends.
  rewrite Hmain, Hside.
  pose proof (youtube_tab_no_request YouTube cfg (login_flow w) (final r1)) as Hyt.
  pose proof (reddit_tab_no_request YouTube cfg (reddit_auth_url w) (final r1)) as Hrt.
  rewrite Htr in Hrt. cbn [trace] in Hrt.
  revert Htwo Hends.
  destruct (sync_content (manual_sync w) _) as [[[] | e | |] st' t];
    cbn [ended trace]; intros Htwo Hends;
    try (destruct Hends as [H | (e' & H & _)]; discriminate);
    (split; [| discriminate]);
    change (Draw MainArea (StTitle "Saved Content Viewer")
            :: trace r1
            ++ Draw MainArea (StTabs ["YouTube"; "Reddit"])
            :: trace (youtube_tab cfg (login_flow w) (final r1))
            ++ tr
            ++ [Draw Sidebar (StHeader "Controls"); Draw Sidebar (StButton "Sync Now")] ++ t)%list
      with ([Draw MainArea (StTitle "Saved Content Viewer")]
            ++ trace r1
            ++ [Draw MainArea (StTabs ["YouTube"; "Reddit"])]
            ++ trace (youtube_tab cfg (login_flow w) (final r1))
            ++ tr
            ++ [Draw Sidebar (StHeader "Controls"); Draw Sidebar (StButton "Sync Now")] ++ t)%list;
    rewrite !requests_app, Hone, Hyt, Hrt, Htwo; reflexivity.
Qed.

Lemma X22_sync_now_fetches_twice_witness :
  let w := {| youtube_callback := youtube_callback (run_at 1700000300 1700000300);
              reddit_callback := reddit_callback (run_at 1700000300 1700000300);
              scheduled_sync := vendors_up 1700000300;
              login_flow := login_flow (run_at 1700000300 1700000300);
              reddit_auth_url := reddit_auth_url (run_at 1700000300 1700000300);
              clicks := fun label => String.eqb label "Sync Now";
              manual_sync := vendors_up 1700000301;
              end_time := 1700000302 |} in
  requests YouTube (trace (Main sample_secrets w (App both_logged_in ∅))) = 2%nat.
Proof.
  refine (proj1 (X22_sync_now_fetches_twice sample_secrets _ both_logged_in ∅
                   sample_credentials (get_youtube_api sample_credentials)
                   _ _ _ _ _ _ _ _));
    first [reflexivity | vm_compute; reflexivity | (unfold stale; vm_compute; discriminate)
          | (vm_compute; discriminate)].
Defined.

(** X23.  A stale evaluation replaces the item lists wholesale: after it,
    the list of videos is exactly what the YouTube fetch returned, and,
    when the evaluation is not cut short before Reddit is asked, the list
    of posts is exactly the submissions of the Reddit listing; nothing of
    the previous lists is kept. *)
Theorem X23_sync_replaces_lists w s q :
  stale (time_time w) s ->
  let r := sync_content w (App s q) in
  (forall client videos,
     youtube_api s = Some client ->
     liked_videos (videos_list w) = inr videos ->
     youtube_videos (session (final r)) = videos) /\
  (forall client items,
     reddit s = Some client ->
     youtube_api s = None \/ escapes (videos_list w) = false ->
     saved w = Yields items ->
     reddit_posts (session (final r)) = posts_of_saved items).
Proof.
  intros Hs. cbv zeta. split.
  - intros client videos' Ha Hl. revert Hs Ha Hl. cbn [session].
    change s with (session (App s q)) at 1 2.
    generalize (App s q). intros st.
    sync_cases w st; run; unfold stale, fresh in *; intros; try lia; congruence.
  - intros client items' Hr Hy Hw. revert Hs Hr Hy Hw.
    change s with (session (App s q)) at 1 2 3.
    generalize (App s q). intros st.
    sync_cases w st; run; unfold stale, fresh in *; intros Hs Hr Hy Hw;
      try lia; try congruence;
      destruct Hy as [Hy | Hy]; try discriminate; congruence.
Qed.

Lemma X23_sync_replaces_lists_witness :
  let w := SyncWorld 1700000300 (Executes (JObj [])) (Yields [Comment "only a comment"]) in
  let r := sync_content w (App both_logged_in ∅) in
  youtube_videos (session (final r)) = [] /\ reddit_posts (session (final r)) = [].
Proof.
  assert (Hs : stale 1700000300 both_logged_in) by (unfold stale; vm_compute; discriminate).
  destruct (X23_sync_replaces_lists
              (SyncWorld 1700000300 (Executes (JObj [])) (Yields [Comment "only a comment"]))
              both_logged_in ∅ Hs) as [Hv Hp].
  split.
  - apply (Hv (get_youtube_api sample_credentials) []); reflexivity.
  - apply (Hp sample_reddit [Comment "only a comment"]);
      [reflexivity | right; reflexivity | reflexivity].
Defined.

Lemma handle_reddit_callback_authorized cfg w s q code :
  q !! "code" = Some code ->
  authorize w = None ->
  handle_reddit_callback cfg w (App s q) =
  match sync_content (reddit_callback_sync w)
          (App (set_reddit
                  (Some (PrawReddit (REDDIT_CLIENT_ID cfg) (REDDIT_CLIENT_SECRET cfg)
                           REDDIT_REDIRECT_URI (REDDIT_USER_AGENT cfg) code)) s) ∅) with
  | Ran (Return _) st' t => Ran Rerun st' t
  | Ran (Raise e) st' t =>
      Ran (Return tt) st' (t ++ [StError (FString "Reddit login failed: " e "")])
  | Ran Rerun st' t => Ran Rerun st' t
  | Ran Stop st' t => Ran Stop st' t
  end.
Proof.
  intros Hc Ha. unfold handle_reddit_callback, bind, try_except. run.
  rewrite Hc, Ha. run.
  destruct (sync_content _ _) as [[[] | e | |] st' t]; run;
    rewrite ?app_nil_r; reflexivity.
Qed.

(** X24.  The Reddit handler takes every code the YouTube handler leaves:
    in a run whose request carries a code but no state, or a state other
    than the stored one, the code goes to Reddit's token exchange, and if
    that succeeds the run logs Reddit in with it, empties the query
    parameters, syncs and ends by asking for a re-execution, with nothing
    but the title drawn. *)
Theorem X24_unclaimed_code_goes_to_reddit secrets w s q code :
  first_absent secrets = None ->
  q !! "code" = Some code ->
  (q !! "state" = None \/
   exists state expected,
     q !! "state" = Some state /\ oauth_state s = Some expected /\ state <> expected) ->
  authorize (reddit_callback w) = None ->
  exists cfg,
    load_secrets secrets (App s q) = Ran (Return cfg) (App s q) [] /\
    let client := PrawReddit (REDDIT_CLIENT_ID cfg) (REDDIT_CLIENT_SECRET cfg)
                    REDDIT_REDIRECT_URI (REDDIT_USER_AGENT cfg) code in
    let r0 := sync_content (reddit_callback_sync (reddit_callback w))
                (App (set_reddit (Some client) s) ∅) in
    (ended r0 = Return tt ->
     Main secrets w (App s q) =
     Ran Rerun (final r0) (Draw MainArea (StTitle "Saved Content Viewer") :: trace r0)) /\
    reddit (session (final r0)) = Some client /\
    query_params (final r0) = ∅.
Proof.
  intros Hk Hc Hstate Ha.
  destruct (load_secrets_present secrets (App s q) Hk) as [cfg Hcfg].
  exists cfg. split; [exact Hcfg |]. cbv zeta.
  assert (Hyt : handle_youtube_callback (youtube_callback w) (App s q)
                = Ran (Return tt) (App s q) []).
  { destruct Hstate as [Hn | (state & expected & Hs & Ho & Hne)].
    - unfold handle_youtube_callback, bind. run. rewrite Hc, Hn. reflexivity.
    - apply (handle_youtube_callback_mismatch _ (App s q) code state expected Hc Hs Ho Hne). }
  pose proof (sync_content_frame (reddit_callback_sync (reddit_callback w))
                (App (set_reddit
                        (Some (PrawReddit (REDDIT_CLIENT_ID cfg) (REDDIT_CLIENT_SECRET cfg)
                                 REDDIT_REDIRECT_URI (REDDIT_USER_AGENT cfg) code)) s) ∅))
    as (Hq & _ & _ & Hred & _).
  cbn [session query_params reddit set_reddit] in Hq, Hred.
  split; [| split; [exact Hred | exact Hq]].
  intros Hret. unfold Main.
  rewrite (bind_returned _ _ (App s q) cfg Hcfg). rewrite bind_draw.
  rewrite (bind_returned _ _ (App s q) tt Hyt).
  unfold bind at 1.
  rewrite (handle_reddit_callback_authorized cfg (reddit_callback w) s q code Hc Ha).
  revert Hret.
  destruct (sync_content _ _) as [[[] | e | |] st' t]; cbn [ended final trace];
    intros Hret; try discriminate. reflexivity.
Qed.

Lemma X24_unclaimed_code_goes_to_reddit_witness :
  let stale_link : gmap string string := {[ "code" := "4/0AfJohX"; "state" := "older" ]} in
  reddit (after (Main sample_secrets (run_at 1700000100 1700000100)) visited stale_link)
  = Some (PrawReddit "abc123" "s3cr3t" REDDIT_REDIRECT_URI "saved-hub" "4/0AfJohX").
Proof.
  destruct (X24_unclaimed_code_goes_to_reddit sample_secrets (run_at 1700000100 1700000100)
              visited {[ "code" := "4/0AfJohX"; "state" := "older" ]} "4/0AfJohX")
    as (cfg & Hcfg & Hmain & Hred & _).
  - vm_compute. reflexivity.
  - reflexivity.
  - right. exists "older", "xyz".
    split; [reflexivity | split; [vm_compute; reflexivity | discriminate]].
  - reflexivity.
  - assert (E : cfg = sample_config).
    { vm_compute in Hcfg. injection Hcfg as <-. reflexivity. }
    subst cfg. cbv zeta in Hmain, Hred. unfold after. cbv zeta.
    rewrite Hmain by (vm_compute; reflexivity).
    cbn [final]. exact Hred.
Defined.
